(** * zotero-center-pdf: the re-centring plugin, embedded and verified

    The repository holds one class, [Plugin], in two near-identical
    files: [src/plugin.ts] (navigation is observed through click/change
    listeners; module [Listener] below) and a second revision of the same
    file (navigation operations of the reader view are replaced by
    wrappers; module [Override] below).  Everything the two files share
    word for word lives in module [Plugin].

    Numbers.  The layout attributes read by the code ([offsetTop],
    [offsetLeft], [clientWidth], [clientHeight]) are integers in the DOM
    (IDL type [long]) and are modelled as [Z]; [scrollTop] may be
    fractional and is a rational.  On such values the products with
    [0.5] and the sums of [getScrollTarget] are exact, so the results
    are modelled as rationals, compared with [==]. *)

From Stdlib Require Import ZArith QArith Qabs String Ascii List Bool Lia Lqa.
From stdpp Require Import base option list gmap strings.
Import ListNotations.

Local Open Scope Z_scope.

(** ** The DOM as the plugin sees it *)

Module Dom.

(** The layout attributes of an [HTMLElement] that the code reads. *)
Record HTMLElement := {
  offsetTop : Z;
  offsetLeft : Z;
  clientWidth : Z;
  clientHeight : Z;
  scrollTop : Q
}.

(** The scrollable container: its own box and what
    [viewer.querySelectorAll('.pdfViewer .page')] returns, in document
    order. *)
Record ViewerNode := {
  box : HTMLElement;
  pages : list HTMLElement
}.

(** The argument of [scrollTo] and the result of [getScrollTarget]. *)
Record ScrollTarget := { top : Q; left : Q }.

Definition detached : ViewerNode :=
  {| box := {| offsetTop := 0; offsetLeft := 0; clientWidth := 0;
               clientHeight := 0; scrollTop := 0%Q |};
     pages := [] |}.

End Dom.
Export Dom.

(** ** The geometry functions, shared by both files *)

Module Geometry.

(** [static getScrollTarget(viewer, page)]. *)
Definition getScrollTarget (viewer page : HTMLElement) : ScrollTarget :=
  let xOffset := (inject_Z (clientWidth page - clientWidth viewer) * (1 # 2))%Q in
  let yOffset := (inject_Z (clientHeight page - clientHeight viewer) * (1 # 2))%Q in
  {| top := (inject_Z (offsetTop page) + yOffset)%Q;
     left := (inject_Z (offsetLeft page) + xOffset)%Q |}.

(** The test of the loop: [Math.abs(p.offsetTop - viewer.scrollTop) < 5],
    the difference taken as exact. *)
Definition near (viewer p : HTMLElement) : bool :=
  if Qlt_le_dec (Qabs (inject_Z (offsetTop p) - scrollTop viewer)) 5 then true else false.

(** [for (const p of pages) { if (...) return p; } return null]. *)
Fixpoint firstNear (viewer : HTMLElement) (ps : list HTMLElement) : option HTMLElement :=
  match ps with
  | [] => None
  | p :: rest => if near viewer p then Some p else firstNear viewer rest
  end.

(** [static getCurrentPage(viewer)]. *)
Definition getCurrentPage (viewer : ViewerNode) : option HTMLElement :=
  firstNear (box viewer) (pages viewer).

End Geometry.

(** ** The host application, the reader and the world the plugin runs in *)

Module Host.

(** The kind tag of a reader ([reader.type]). *)
Inductive ReaderType := pdf | epub | snapshot.

(** The argument of [Plugin.log].  The two template literals of the
    source keep their hole as data. *)
Inductive Message :=
| text (s : string)
| notReady (tabID : string)            (* couldn't attach styles; tab ${reader.tabID} not ready *)
| scrollingTo (target : ScrollTarget). (* scrolling to ${JSON.stringify(target)} *)

(** One line of [Zotero.debug]: [[${config.addonName}] ${msg}]. *)
Record DebugLine := { tag : string; message : Message }.

(** The fixed selectors the code queries with. *)
Inductive Selector :=
| sel_viewerFrame      (* iframe[src=pdf/web/viewer.html] *)
| sel_previous         (* button#previous *)
| sel_next             (* button#next *)
| sel_navigateBack     (* button#navigateBack *)
| sel_pageNumber       (* input#pageNumber *)
| sel_viewerContainer  (* #viewerContainer *)
| sel_pages.           (* .pdfViewer .page *)

(** What [querySelector] finds in the reader's document: references to
    elements, [None] for [null]. *)
Record Document := {
  q_viewerFrame : option nat;
  q_previous : option nat;
  q_next : option nat;
  q_navigateBack : option nat;
  q_pageNumber : option nat
}.

(** The content document of the viewer frame. *)
Record FrameDocument := { q_viewerContainer : option nat }.

(** An element that can be the result of the frame selector. *)
Record Element := {
  tagName : string;
  contentDocument : option FrameDocument
}.

(** The state of a promise; the value of a fulfilled promise is an
    element reference or [null] (the readiness promises carry nothing
    the code reads). *)
Inductive PromiseState := pending | fulfilled (v : option nat) | rejected.

(** How the environment settles a promise. *)
Inductive Outcome := ok (v : option nat) | fail.

(** A reader instance.  [waitForReader] is the promise that
    [reader._waitForReader()] returns, [iframeWindow] is
    [reader?._iframeWindow?.document], [lastView] refers to
    [reader._internalReader._lastView]. *)
Record ReaderInstance := {
  type : ReaderType;
  tabID : string;
  waitForReader : nat;
  initPromise : nat;
  iframeWindow : option Document;
  lastView : nat
}.

(** The primitives of the viewer that the wrappers of the second file
    call, each with the object it is called on. *)
Inductive Primitive :=
| history_navigateBack (view : nat)       (* lastView._history.navigateBack() *)
| previousPage (pdfViewer : nat)          (* pdfViewer.previousPage() *)
| nextPage (pdfViewer : nat)              (* pdfViewer.nextPage() *)
| dispatch (eventBus : nat) (name : string). (* eventBus.dispatch(name) *)

(** The five navigation operations of a view. *)
Inductive NavOp :=
| navigateBack | navigateToPreviousPage | navigateToNextPage
| navigateToFirstPage | navigateToLastPage.

(** A navigation operation is the reader's own function, or a closure
    [() => { primitive; this.centerCurrentPage(viewer); }] of the plugin. *)
Inductive NavFn :=
| native
| centering (prim : Primitive) (viewer : nat).

Record PDFViewerApplication := {
  pdfViewer : option nat;
  eventBus : option nat
}.

(** [lastView._iframeWindow], a window that may or may not carry
    [PDFViewerApplication]. *)
Record FrameWindow := { application : option PDFViewerApplication }.

(** [reader._internalReader._lastView]: [frameWindow] is
    [lastView._iframeWindow]. *)
Record View := {
  frameWindow : option FrameWindow;
  fn_navigateBack : NavFn;
  fn_navigateToPreviousPage : NavFn;
  fn_navigateToNextPage : NavFn;
  fn_navigateToFirstPage : NavFn;
  fn_navigateToLastPage : NavFn
}.

(** Function objects that end up as listeners or timers.  [handler] is
    the closure of lines 76-79 of [src/plugin.ts]; one is created per run
    of [addListeners], [closure] tells them apart. *)
Inductive Callback :=
| handler (closure : nat) (viewer : nat) (* () => setTimeout(() => {...}, 0) *)
| centerLater (viewer : nat)             (* () => { this.centerCurrentPage(viewer) } *)
| loadResolve (iframe : nat) (promise : nat) (* the load listener of getViewerContainer *)
| foreign (n : nat).                     (* a listener that is not the plugin's *)

(** The trace of calls into foreign objects, in the order they are made:
    the DOM queries and the calls that can move the view.  (The other
    foreign calls of the code have their own state: Zotero.debug the
    debug log, addEventListener the listeners, setTimeout the timers,
    register/unregisterEventListener the registry, the readiness calls
    the promise store.) *)
Inductive Call :=
| c_querySelector (s : Selector)
| c_querySelectorAll (s : Selector)
| c_primitive (p : Primitive)
| c_native (view : nat) (op : NavOp)
| c_scrollTo (viewer : nat) (target : ScrollTarget)
| c_foreign (n : nat).

(** Which of the two files a suspended [addListeners] belongs to. *)
Inductive Variant := listener | override.

(** Where an [async addListeners] is suspended. *)
Inductive Cont :=
| k_init (v : Variant) (reader : nat)   (* after await reader._waitForReader() *)
| k_lookup (v : Variant) (reader : nat) (* after await reader._initPromise *)
| k_listen (previous next back pageInput : option nat)
                                        (* after await getViewerContainer, first file *)
| k_replace (reader : nat).             (* after await getViewerContainer, second file *)

(** The handler registered with [Zotero.Reader]. *)
Inductive HandlerRef := this_onRenderToolbar | otherHandler (n : nat).

Record Registration := {
  eventType : string;
  eventHandler : HandlerRef;
  pluginID : string
}.

(** [PluginOptions] and the fields of the class. *)
Record PluginOptions := {
  o_id : option string;
  o_stylesId : option string;
  o_version : string;
  o_rootURI : string
}.

Record PluginFields := {
  id : string;
  stylesId : string;
  version : string;
  rootURI : string;
  priv_isActive : bool   (* #isActive *)
}.

#[global] Instance Callback_eq_dec : EqDecision Callback.
Proof. solve_decision. Defined.
#[global] Instance HandlerRef_eq_dec : EqDecision HandlerRef.
Proof. solve_decision. Defined.
#[global] Instance ReaderType_eq_dec : EqDecision ReaderType.
Proof. solve_decision. Defined.

(** The whole state: the plugin object, the host's sinks and registry,
    the promise store and the suspended tasks, and the reader's objects.
    Readers, elements, containers and views are referred to by number; a
    reader or view that is not in its store stands for [undefined], and
    code that reads a property of it throws. *)
Record World := {
  this : PluginFields;
  addonName : string;                       (* config.addonName *)
  debugLog : list DebugLine;                (* Zotero.debug *)
  registry : list Registration;             (* Zotero.Reader listeners *)
  promises : list PromiseState;             (* a promise is its index *)
  tasks : list (nat * Cont);                (* awaited promise, continuation *)
  rejections : nat;                         (* addListeners promises that rejected *)
  readers : gmap nat ReaderInstance;
  elements : gmap nat Element;
  viewers : gmap nat ViewerNode;            (* layout of the scroll containers *)
  views : gmap nat View;
  listeners : list (nat * string * Callback); (* target, type, callback *)
  timers : list Callback;                   (* setTimeout queue *)
  calls : list Call;
  browser : Call -> gmap nat ViewerNode -> gmap nat ViewerNode
                                            (* what a foreign call does to the layout *)
}.

Definition set_debugLog (x : list DebugLine) (w : World) : World :=
  {| this := this w; addonName := addonName w; debugLog := x; registry := registry w;
     promises := promises w; tasks := tasks w; rejections := rejections w;
     readers := readers w; elements := elements w; viewers := viewers w;
     views := views w; listeners := listeners w; timers := timers w;
     calls := calls w; browser := browser w |}.
Definition set_registry (x : list Registration) (w : World) : World :=
  {| this := this w; addonName := addonName w; debugLog := debugLog w; registry := x;
     promises := promises w; tasks := tasks w; rejections := rejections w;
     readers := readers w; elements := elements w; viewers := viewers w;
     views := views w; listeners := listeners w; timers := timers w;
     calls := calls w; browser := browser w |}.
Definition set_promises (x : list PromiseState) (w : World) : World :=
  {| this := this w; addonName := addonName w; debugLog := debugLog w; registry := registry w;
     promises := x; tasks := tasks w; rejections := rejections w;
     readers := readers w; elements := elements w; viewers := viewers w;
     views := views w; listeners := listeners w; timers := timers w;
     calls := calls w; browser := browser w |}.
Definition set_tasks (x : list (nat * Cont)) (w : World) : World :=
  {| this := this w; addonName := addonName w; debugLog := debugLog w; registry := registry w;
     promises := promises w; tasks := x; rejections := rejections w;
     readers := readers w; elements := elements w; viewers := viewers w;
     views := views w; listeners := listeners w; timers := timers w;
     calls := calls w; browser := browser w |}.
Definition set_rejections (x : nat) (w : World) : World :=
  {| this := this w; addonName := addonName w; debugLog := debugLog w; registry := registry w;
     promises := promises w; tasks := tasks w; rejections := x;
     readers := readers w; elements := elements w; viewers := viewers w;
     views := views w; listeners := listeners w; timers := timers w;
     calls := calls w; browser := browser w |}.
Definition set_viewers (x : gmap nat ViewerNode) (w : World) : World :=
  {| this := this w; addonName := addonName w; debugLog := debugLog w; registry := registry w;
     promises := promises w; tasks := tasks w; rejections := rejections w;
     readers := readers w; elements := elements w; viewers := x;
     views := views w; listeners := listeners w; timers := timers w;
     calls := calls w; browser := browser w |}.
Definition set_views (x : gmap nat View) (w : World) : World :=
  {| this := this w; addonName := addonName w; debugLog := debugLog w; registry := registry w;
     promises := promises w; tasks := tasks w; rejections := rejections w;
     readers := readers w; elements := elements w; viewers := viewers w;
     views := x; listeners := listeners w; timers := timers w;
     calls := calls w; browser := browser w |}.
Definition set_listeners (x : list (nat * string * Callback)) (w : World) : World :=
  {| this := this w; addonName := addonName w; debugLog := debugLog w; registry := registry w;
     promises := promises w; tasks := tasks w; rejections := rejections w;
     readers := readers w; elements := elements w; viewers := viewers w;
     views := views w; listeners := x; timers := timers w;
     calls := calls w; browser := browser w |}.
Definition set_timers (x : list Callback) (w : World) : World :=
  {| this := this w; addonName := addonName w; debugLog := debugLog w; registry := registry w;
     promises := promises w; tasks := tasks w; rejections := rejections w;
     readers := readers w; elements := elements w; viewers := viewers w;
     views := views w; listeners := listeners w; timers := x;
     calls := calls w; browser := browser w |}.
Definition set_calls (x : list Call) (w : World) : World :=
  {| this := this w; addonName := addonName w; debugLog := debugLog w; registry := registry w;
     promises := promises w; tasks := tasks w; rejections := rejections w;
     readers := readers w; elements := elements w; viewers := viewers w;
     views := views w; listeners := listeners w; timers := timers w;
     calls := x; browser := browser w |}.

End Host.
Export Host.

(** ** What both files share: constructor, lifecycle, centring, container lookup *)

Module Plugin.

(** [constructor({id = 'center-pdf@dylan.ac', stylesId = 'pluginStyles',
    version, rootURI})]; the field initialiser [#isActive = true]. *)
Definition constructor (o : PluginOptions) : PluginFields :=
  {| id := default "center-pdf@dylan.ac"%string (o_id o);
     stylesId := default "pluginStyles"%string (o_stylesId o);
     version := o_version o;
     rootURI := o_rootURI o;
     priv_isActive := true |}.

(** [get isActive()]. *)
Definition isActive (p : PluginFields) : bool := priv_isActive p.

(** [log(msg)]. *)
Definition log (msg : Message) (w : World) : World :=
  set_debugLog (debugLog w ++ [{| tag := addonName w; message := msg |}]) w.

(** A foreign call with no effect of its own (a query). *)
Definition note (c : Call) (w : World) : World :=
  set_calls (calls w ++ [c]) w.

(** A foreign call that may move the layout. *)
Definition call (c : Call) (w : World) : World :=
  set_viewers (browser w c (viewers w)) (set_calls (calls w ++ [c]) w).

(** [startup()]. *)
Definition startup (w : World) : World :=
  let w := log (text "registering renderToolbar listener") w in
  set_registry
    (registry w ++ [{| eventType := "renderToolbar"; eventHandler := this_onRenderToolbar;
                       pluginID := id (this w) |}]) w.

(** [shutdown()]: the host drops the registrations of that event type
    and handler. *)
Definition shutdown (w : World) : World :=
  let w := log (text "unregistering renderToolbar listener") w in
  set_registry
    (filter (fun r => ~ (eventType r = "renderToolbar"%string
                         /\ eventHandler r = this_onRenderToolbar)) (registry w)) w.

(** The layout of a scroll container at this moment. *)
Definition layout (w : World) (viewer : nat) : ViewerNode :=
  default detached (viewers w !! viewer).

(** [centerCurrentPage(viewer)]. *)
Definition centerCurrentPage (viewer : nat) (w : World) : World :=
  let node := layout w viewer in
  let w := note (c_querySelectorAll sel_pages) w in
  match Geometry.getCurrentPage node with
  | None => log (text "couldn't identify current page") w
  | Some page =>
      let target := Geometry.getScrollTarget (box node) page in
      let w := log (scrollingTo target) w in
      call (c_scrollTo viewer target) w
  end.

(** [target.addEventListener(type, callback)]: a listener with the same
    type and the same callback object is not added again. *)
Definition addEventListener (target : nat) (type : string) (cb : Callback)
    (w : World) : World :=
  if bool_decide ((target, type, cb) ∈ listeners w) then w
  else set_listeners (listeners w ++ [(target, type, cb)]) w.

(** The identity of a [handler] closure created now: a new function
    object is none of the handlers already registered. *)
Definition newClosure (w : World) : nat :=
  S (list_max (map (fun l : nat * string * Callback =>
                      match l.2 with handler c _ => c | _ => 0%nat end) (listeners w))).

(** [target?.addEventListener(type, callback)]. *)
Definition addEventListener_opt (target : option nat) (type : string) (cb : Callback)
    (w : World) : World :=
  match target with
  | Some t => addEventListener t type cb w
  | None => w
  end.

(** [iframe.contentDocument?.querySelector('#viewerContainer')]: the
    query is made only when there is a content document. *)
Definition queryViewerContainer (iframe : nat) (w : World) : option nat * World :=
  match elements w !! iframe ≫= contentDocument with
  | Some d => (q_viewerContainer d, note (c_querySelector sel_viewerContainer) w)
  | None => (None, w)
  end.

(** [static getViewerContainer(iframe)]: returns the new promise, already
    fulfilled when the container is found at once, else pending with a
    load listener on the frame. *)
Definition getViewerContainer (iframe : nat) (w : World) : nat * World :=
  let p := length (promises w) in
  let w := set_promises (promises w ++ [pending]) w in
  let '(viewer, w) := queryViewerContainer iframe w in
  match viewer with
  | Some v => (p, set_promises (<[p := fulfilled (Some v)]> (promises w)) w)
  | None => (p, addEventListener iframe "load" (loadResolve iframe p) w)
  end.

Definition toUpperCase_ascii (c : ascii) : ascii :=
  let n := nat_of_ascii c in
  if (97 <=? n)%nat && (n <=? 122)%nat then ascii_of_nat (n - 32) else c.

Fixpoint toUpperCase (s : string) : string :=
  match s with
  | EmptyString => EmptyString
  | String c rest => String (toUpperCase_ascii c) (toUpperCase rest)
  end.

(** [isIframe(e)]: [e.tagName.toUpperCase() === 'IFRAME']. *)
Definition isIframe (e : Element) : bool :=
  bool_decide (toUpperCase (tagName e) = "IFRAME"%string).

(** The state of a promise; an index outside the store never settles. *)
Definition promiseState (w : World) (p : nat) : PromiseState :=
  default pending (promises w !! p).

(** An [async] function ends by an exception: its promise rejects. *)
Definition reject (w : World) : World :=
  set_rejections (S (rejections w)) w.

(** [await p]: go on with [now] when [p] is fulfilled, end rejected when
    it is rejected, else park the continuation [k] on [p].  (JavaScript
    resumes after a fulfilled promise one microtask later; no other code
    of the plugin runs in between, so the hop is not modelled.) *)
Definition await (p : nat) (k : Cont) (now : option nat -> World -> World)
    (w : World) : World :=
  match promiseState w p with
  | fulfilled v => now v w
  | rejected => reject w
  | pending => set_tasks (tasks w ++ [(p, k)]) w
  end.

(** [doc?.querySelector(...)] for the frame, and the guard
    [!doc || !iframe || !isIframe(iframe)]: the frame when the guard
    lets it through. *)
Definition findFrame (reader : ReaderInstance) (w : World) : option nat * World :=
  match iframeWindow reader with
  | None => (None, w)
  | Some doc =>
      let w := note (c_querySelector sel_viewerFrame) w in
      match q_viewerFrame doc with
      | None => (None, w)
      | Some f =>
          match elements w !! f with
          | Some e => if isIframe e then (Some f, w) else (None, w)
          | None => (None, w)
          end
      end
  end.

End Plugin.

(** ** First file, [src/plugin.ts]: click and change listeners *)

Module Listener.
Import Plugin.

(** Lines 72-85: after [await Plugin.getViewerContainer(iframe)]. *)
Definition attach (previous next back pageInput : option nat) (viewer : option nat)
    (w : World) : World :=
  match viewer with
  | None => w
  | Some v =>
      let h := handler (newClosure w) v in
      let w := addEventListener_opt previous "click" h w in
      let w := addEventListener_opt next "click" h w in
      let w := addEventListener_opt back "click" h w in
      let w := addEventListener_opt pageInput "change" h w in
      log (text "added page listeners") w
  end.

(** Lines 57-71: after [await reader._initPromise]. *)
Definition lookup (r : nat) (w : World) : World :=
  match readers w !! r with
  | None => reject w
  | Some reader =>
      match findFrame reader w, iframeWindow reader with
      | (Some iframe, w), Some doc =>
          let previous := q_previous doc in
          let w := note (c_querySelector sel_previous) w in
          let next := q_next doc in
          let w := note (c_querySelector sel_next) w in
          let back := q_navigateBack doc in
          let w := note (c_querySelector sel_navigateBack) w in
          let pageInput := q_pageNumber doc in
          let w := note (c_querySelector sel_pageNumber) w in
          let '(p, w) := getViewerContainer iframe w in
          await p (k_listen previous next back pageInput)
            (attach previous next back pageInput) w
      | (_, w), _ => log (notReady (tabID reader)) w
      end
  end.

(** Line 56: after [await reader._waitForReader()]. *)
Definition init (r : nat) (w : World) : World :=
  match readers w !! r with
  | None => reject w
  | Some reader => await (initPromise reader) (k_lookup listener r) (fun _ => lookup r) w
  end.

(** [async addListeners(reader)], up to its first suspension. *)
Definition addListeners (r : nat) (w : World) : World :=
  let w := log (text "adding page listeners") w in
  match readers w !! r with
  | None => reject w
  | Some reader => await (waitForReader reader) (k_init listener r) (fun _ => init r) w
  end.

(** [onRenderToolbar = (e) => this.addListeners(e.reader)]. *)
Definition onRenderToolbar (r : nat) (w : World) : World := addListeners r w.

End Listener.

(** ** Second file: the navigation operations of the view are replaced *)

Module Override.
Import Plugin.

(** [isPDFReader(r)]: [r.type === 'pdf']. *)
Definition isPDFReader (reader : ReaderInstance) : bool :=
  bool_decide (type reader = pdf).

(** [lastView._iframeWindow?.PDFViewerApplication.pdfViewer] (and the
    same for [eventBus]): [undefined] when there is no window; when the
    window has no [PDFViewerApplication] the read of the field throws a
    TypeError, here [None]. *)
Definition readApplication (field : PDFViewerApplication -> option nat) (view : View)
    : option (option nat) :=
  match frameWindow view with
  | None => Some None
  | Some win =>
      match application win with
      | None => None
      | Some app => Some (field app)
      end
  end.

(** Lines 71-103: after [await Plugin.getViewerContainer(iframe)]. *)
Definition attach (r : nat) (viewer : option nat) (w : World) : World :=
  match readers w !! r with
  | None => reject w
  | Some reader =>
      let lv := lastView reader in
      match views w !! lv with
      | None => reject w
      | Some view =>
          match readApplication pdfViewer view with
          | None => reject w
          | Some pdfViewer' =>
              match readApplication eventBus view with
              | None => reject w
              | Some eventBus' =>
                  match viewer, pdfViewer', eventBus' with
                  | Some v, Some pv, Some eb =>
                      let view' :=
                        {| frameWindow := frameWindow view;
                           fn_navigateBack := centering (history_navigateBack lv) v;
                           fn_navigateToPreviousPage := centering (previousPage pv) v;
                           fn_navigateToNextPage := centering (nextPage pv) v;
                           fn_navigateToFirstPage := centering (dispatch eb "firstpage") v;
                           fn_navigateToLastPage := centering (dispatch eb "lastpage") v |} in
                      let w := set_views (<[lv := view']> (views w)) w in
                      log (text "added page listeners") w
                  | _, _, _ => w
                  end
              end
          end
      end
  end.

(** Lines 61-70: after [await reader._initPromise]. *)
Definition lookup (r : nat) (w : World) : World :=
  match readers w !! r with
  | None => reject w
  | Some reader =>
      match findFrame reader w with
      | (Some iframe, w) =>
          let '(p, w) := getViewerContainer iframe w in
          await p (k_replace r) (attach r) w
      | (None, w) => log (notReady (tabID reader)) w
      end
  end.

(** Line 60: after [await reader._waitForReader()]. *)
Definition init (r : nat) (w : World) : World :=
  match readers w !! r with
  | None => reject w
  | Some reader => await (initPromise reader) (k_lookup override r) (fun _ => lookup r) w
  end.

(** [async addListeners(reader)], up to its first suspension. *)
Definition addListeners (r : nat) (w : World) : World :=
  let w := log (text "adding page listeners") w in
  match readers w !! r with
  | None => reject w
  | Some reader => await (waitForReader reader) (k_init override r) (fun _ => init r) w
  end.

(** [onRenderToolbar]: [if (isPDFReader(reader)) this.addListeners(reader)]. *)
Definition onRenderToolbar (r : nat) (w : World) : World :=
  match readers w !! r with
  | None => reject w
  | Some reader => if isPDFReader reader then addListeners r w else w
  end.

End Override.

(** ** The event loop: settled promises, DOM events, timers, navigation *)

Module Runtime.
Import Plugin.

(** A suspended [addListeners] goes on with the value of its promise. *)
Definition resume (k : Cont) (v : option nat) (w : World) : World :=
  match k with
  | k_init listener r => Listener.init r w
  | k_init override r => Override.init r w
  | k_lookup listener r => Listener.lookup r w
  | k_lookup override r => Override.lookup r w
  | k_listen previous next back pageInput => Listener.attach previous next back pageInput v w
  | k_replace r => Override.attach r v w
  end.

(** A pending promise settles: the tasks parked on it run in the order
    they were parked.  Settling a promise twice does nothing. *)
Definition settle (p : nat) (o : Outcome) (w : World) : World :=
  match promises w !! p with
  | Some pending =>
      let waiting := filter (fun t => t.1 = p) (tasks w) in
      let w := set_tasks (filter (fun t => t.1 <> p) (tasks w)) w in
      match o with
      | ok v =>
          let w := set_promises (<[p := fulfilled v]> (promises w)) w in
          fold_left (fun w t => resume t.2 v w) waiting w
      | fail =>
          let w := set_promises (<[p := rejected]> (promises w)) w in
          fold_left (fun w _ => reject w) waiting w
      end
  | _ => w
  end.

(** Calling a function object. *)
Definition invoke (cb : Callback) (w : World) : World :=
  match cb with
  | handler _ viewer => set_timers (timers w ++ [centerLater viewer]) w
  | centerLater viewer => centerCurrentPage viewer w
  | loadResolve iframe p =>
      let '(viewer, w) := queryViewerContainer iframe w in
      settle p (ok viewer) w
  | foreign n => call (c_foreign n) w
  end.

(** The browser fires an event: the listeners of that target and type
    run in the order they were added. *)
Definition dispatchEvent (target : nat) (type : string) (w : World) : World :=
  fold_left (fun w l => invoke l.2 w)
    (filter (fun l => l.1 = (target, type)) (listeners w)) w.

(** The next timer fires. *)
Definition runTimer (w : World) : World :=
  match timers w with
  | [] => w
  | cb :: rest => invoke cb (set_timers rest w)
  end.

Definition slot (op : NavOp) (v : View) : NavFn :=
  match op with
  | navigateBack => fn_navigateBack v
  | navigateToPreviousPage => fn_navigateToPreviousPage v
  | navigateToNextPage => fn_navigateToNextPage v
  | navigateToFirstPage => fn_navigateToFirstPage v
  | navigateToLastPage => fn_navigateToLastPage v
  end.

(** The reader calls a navigation operation of a view. *)
Definition navigate (view : nat) (op : NavOp) (w : World) : World :=
  match slot op <$> views w !! view with
  | Some (centering prim viewer) => centerCurrentPage viewer (call (c_primitive prim) w)
  | Some native => call (c_native view op) w
  | None => w
  end.

(** What can happen during the life of a plugin: its own operations, and
    what the host, the browser and the reader do around it. *)
Inductive Step :=
| s_startup
| s_shutdown
| s_onRenderToolbar (v : Variant) (reader : nat)
| s_addListeners (v : Variant) (reader : nat)
| s_centerCurrentPage (viewer : nat)
| s_log (msg : Message)
| s_settle (p : nat) (o : Outcome)
| s_dispatchEvent (target : nat) (type : string)
| s_runTimer
| s_navigate (view : nat) (op : NavOp)
| s_newPromise
| s_mutate (rs : gmap nat ReaderInstance) (es : gmap nat Element)
           (ls : gmap nat ViewerNode) (vs : gmap nat View).

Definition step (s : Step) (w : World) : World :=
  match s with
  | s_startup => startup w
  | s_shutdown => shutdown w
  | s_onRenderToolbar listener r => Listener.onRenderToolbar r w
  | s_onRenderToolbar override r => Override.onRenderToolbar r w
  | s_addListeners listener r => Listener.addListeners r w
  | s_addListeners override r => Override.addListeners r w
  | s_centerCurrentPage viewer => centerCurrentPage viewer w
  | s_log msg => log msg w
  | s_settle p o => settle p o w
  | s_dispatchEvent target type => dispatchEvent target type w
  | s_runTimer => runTimer w
  | s_navigate view op => navigate view op w
  | s_newPromise => set_promises (promises w ++ [pending]) w
  | s_mutate rs es ls vs =>
      {| this := this w; addonName := addonName w; debugLog := debugLog w;
         registry := registry w; promises := promises w; tasks := tasks w;
         rejections := rejections w; readers := rs; elements := es; viewers := ls;
         views := vs; listeners := listeners w; timers := timers w;
         calls := calls w; browser := browser w |}
  end.

Definition run (ss : list Step) (w : World) : World :=
  fold_left (fun w s => step s w) ss w.

(** The world right after [new Plugin(options)], nothing else there yet. *)
Definition fresh (o : PluginOptions) (name : string) : World :=
  {| this := constructor o; addonName := name; debugLog := []; registry := [];
     promises := []; tasks := []; rejections := 0; readers := ∅; elements := ∅;
     viewers := ∅; views := ∅; listeners := []; timers := []; calls := [];
     browser := fun _ ls => ls |}.

End Runtime.

(** ** Notions of the specification, stated over the model *)

Module Spec.
Import Plugin Runtime.

(** The tolerance of the specification: the top of the page differs from
    the scroll position by less than 5 layout units. *)
Definition withinTolerance (viewer p : HTMLElement) : Prop :=
  (Qabs (inject_Z (offsetTop p) - scrollTop viewer) < 5)%Q.

Definition isFulfilled (s : PromiseState) : bool :=
  match s with fulfilled _ => true | _ => false end.

(** Both readiness signals of the reader have resolved. *)
Definition ready (w : World) (reader : ReaderInstance) : bool :=
  isFulfilled (promiseState w (waitForReader reader))
  && isFulfilled (promiseState w (initPromise reader)).

(** The viewer frame of a reader, when document, frame and frame kind
    are all there. *)
Definition frameOf (w : World) (reader : ReaderInstance) : option nat :=
  (findFrame reader w).1.

(** The viewport container inside a frame at this moment. *)
Definition containerOf (es : gmap nat Element) (iframe : nat) : option nat :=
  (es !! iframe ≫= contentDocument) ≫= q_viewerContainer.

(** The surface is ready and its frame can be looked up: the reader and
    its frame. *)
Definition surface (w : World) (r : nat) : option (ReaderInstance * option nat) :=
  reader ← readers w !! r;
  if ready w reader then Some (reader, frameOf w reader) else None.

(** The surface is ready and frame and container are found at once. *)
Definition scaffold (w : World) (r : nat) : option (ReaderInstance * nat * nat) :=
  '(reader, frame) ← surface w r;
  f ← frame;
  v ← containerOf (elements w) f;
  Some (reader, f, v).

(** [PDFViewerApplication] of a view, when window and application are
    both there. *)
Definition appWindow (view : View) : option PDFViewerApplication :=
  frameWindow view ≫= application.

(** Lower case of a tag name, letter by letter. *)
Definition lowerCase_ascii (c : ascii) : ascii :=
  let n := nat_of_ascii c in
  if (65 <=? n)%nat && (n <=? 90)%nat then ascii_of_nat (n + 32) else c.

Fixpoint lowerCase (s : string) : string :=
  match s with
  | EmptyString => EmptyString
  | String c rest => String (lowerCase_ascii c) (lowerCase rest)
  end.

(** The element is an iframe: its tag name reads iframe, in whatever
    letter case. *)
Definition iframeTag (e : Element) : Prop := lowerCase (tagName e) = "iframe"%string.

(** The reader has a content document, the frame selector finds [f] in
    it, and [f] is an iframe. *)
Definition frameFound (w : World) (reader : ReaderInstance) (f : nat) : Prop :=
  exists doc e,
    iframeWindow reader = Some doc /\ q_viewerFrame doc = Some f
    /\ elements w !! f = Some e /\ iframeTag e.

(** The three ways the frame lookup fails: no content document, no
    element for the frame selector, or an element that is not an iframe. *)
Definition frameLookupFails (w : World) (reader : ReaderInstance) : Prop :=
  iframeWindow reader = None
  \/ (exists doc, iframeWindow reader = Some doc /\ q_viewerFrame doc = None)
  \/ (exists doc f e,
        iframeWindow reader = Some doc /\ q_viewerFrame doc = Some f
        /\ elements w !! f = Some e /\ ~ iframeTag e).

(** The reader has its view, and the view's window, when it has one,
    carries PDFViewerApplication: reading pdfViewer and eventBus off the
    view does not throw. *)
Definition viewReadable (w : World) (reader : ReaderInstance) : Prop :=
  exists view,
    views w !! lastView reader = Some view
    /\ (frameWindow view = None
        \/ exists win app, frameWindow view = Some win /\ application win = Some app).

(** The viewer objects the second file needs. *)
Definition viewerObjects (w : World) (reader : ReaderInstance) : option (nat * nat) :=
  view ← views w !! lastView reader;
  pv ← appWindow view ≫= pdfViewer;
  eb ← appWindow view ≫= eventBus;
  Some (pv, eb).

Definition isHandler (cb : Callback) : bool :=
  match cb with handler _ _ => true | _ => false end.

(** The navigation hooks in place: the click and change handlers of the
    first file, the views with their operations of the second. *)
Definition navHooks (w : World) : list (nat * string * Callback) * gmap nat View :=
  (filter (fun l => isHandler l.2 = true) (listeners w), views w).

(** The listeners of one target and event type. *)
Definition listenersOn (target : nat) (type : string) (w : World) : list Callback :=
  (fun l => l.2) <$> filter (fun l => l.1 = (target, type)) (listeners w).

(** The primitive that the specification assigns to each replaced
    operation. *)
Definition primitiveOf (view pv eb : nat) (op : NavOp) : Primitive :=
  match op with
  | navigateBack => history_navigateBack view
  | navigateToPreviousPage => previousPage pv
  | navigateToNextPage => nextPage pv
  | navigateToFirstPage => dispatch eb "firstpage"
  | navigateToLastPage => dispatch eb "lastpage"
  end.

(** A view whose five operations are the centring wrappers around the
    primitives of the specification. *)
Definition replaced (lv pv eb v : nat) (view : View) : View :=
  {| frameWindow := frameWindow view;
     fn_navigateBack := centering (primitiveOf lv pv eb navigateBack) v;
     fn_navigateToPreviousPage := centering (primitiveOf lv pv eb navigateToPreviousPage) v;
     fn_navigateToNextPage := centering (primitiveOf lv pv eb navigateToNextPage) v;
     fn_navigateToFirstPage := centering (primitiveOf lv pv eb navigateToFirstPage) v;
     fn_navigateToLastPage := centering (primitiveOf lv pv eb navigateToLastPage) v |}.

(** The same world with the elements as they are at a later moment. *)
Definition atLoad (es : gmap nat Element) (w : World) : World :=
  step (s_mutate (readers w) es (viewers w) (views w)) w.

(** The debug lines written since an earlier world. *)
Definition loggedSince (before after : World) : list DebugLine :=
  drop (length (debugLog before)) (debugLog after).

Definition line (w : World) (msg : Message) : DebugLine :=
  {| tag := addonName w; message := msg |}.

(** The world in which the lookups of a run are made. *)
Definition entered (w : World) : World := log (text "adding page listeners") w.

(** [w'] is [w] after a run has logged its entry line, made its queries
    and obtained the container [v] at once: apart from the queries only
    the debug log and the promise store have grown. *)
Definition lookedUp (w w' : World) (v : nat) : Prop :=
  this w' = this w /\ addonName w' = addonName w
  /\ debugLog w' = debugLog w ++ [line w (text "adding page listeners")]
  /\ registry w' = registry w
  /\ promises w' = promises w ++ [fulfilled (Some v)]
  /\ tasks w' = tasks w /\ rejections w' = rejections w
  /\ readers w' = readers w /\ elements w' = elements w
  /\ viewers w' = viewers w /\ views w' = views w
  /\ listeners w' = listeners w /\ timers w' = timers w
  /\ browser w' = browser w.

(** An attempt that started in [w] is over in [w']: it wrote the debug
    lines [said] and nothing else of it remains, neither a navigation
    hook, nor a rejection, nor a parked continuation. *)
Definition haltedWith (w w' : World) (said : list DebugLine) : Prop :=
  debugLog w' = debugLog w ++ said
  /\ navHooks w' = navHooks w
  /\ rejections w' = rejections w
  /\ tasks w' = tasks w.

(** An attempt that started in [w] waits in [w'] for the load event of
    the frame [f], to go on with [k]. *)
Definition suspendedOn (w w' : World) (f : nat) (k : Cont) : Prop :=
  debugLog w' = debugLog w ++ [line w (text "adding page listeners")]
  /\ listeners w' = listeners w ++ [(f, "load"%string, loadResolve f (length (promises w)))]
  /\ promises w' = promises w ++ [pending]
  /\ tasks w' = tasks w ++ [(length (promises w), k)]
  /\ rejections w' = rejections w /\ views w' = views w /\ readers w' = readers w
  /\ addonName w' = addonName w.

(** The readiness promise an attachment for this reader has to wait for
    first: [_initPromise] once [_waitForReader()] has resolved. *)
Definition awaited (w : World) (reader : ReaderInstance) : nat :=
  if isFulfilled (promiseState w (waitForReader reader))
  then initPromise reader else waitForReader reader.

(** The continuation that is parked while waiting for it. *)
Definition awaiting (w : World) (reader : ReaderInstance) (v : Variant) (r : nat) : Cont :=
  if isFulfilled (promiseState w (waitForReader reader))
  then k_lookup v r else k_init v r.

(** [w'] has everything [w] had: debug lines, listeners and foreign
    calls are only ever added at the end, rejections only counted up,
    and the host's registry is as it was. *)
Definition extends (w w' : World) : Prop :=
  debugLog w `prefix_of` debugLog w'
  /\ listeners w `prefix_of` listeners w'
  /\ calls w `prefix_of` calls w'
  /\ (rejections w <= rejections w')%nat
  /\ registry w' = registry w.

(** The registrations with the host other than the plugin's own pair,
    the renderToolbar event with its onRenderToolbar. *)
Definition otherRegistrations (w : World) : list Registration :=
  filter (fun r => ~ (eventType r = "renderToolbar"%string
                      /\ eventHandler r = this_onRenderToolbar)) (registry w).

Definition isQuery (c : Call) : bool :=
  match c with c_querySelector _ | c_querySelectorAll _ => true | _ => false end.

(** From [w] to [w'] the layout was left alone: the only calls added to
    the trace are queries (no scrollTo, no navigation primitive, no
    operation of the reader, no foreign listener), and no timer was set. *)
Definition quiet (w w' : World) : Prop :=
  viewers w' = viewers w /\ timers w' = timers w /\ browser w' = browser w
  /\ exists qs, calls w' = calls w ++ qs /\ Forall (fun c => isQuery c = true) qs.

(** The controls of the toolbar with the event each is listened on. *)
Definition controls (doc : Document) : list (option nat * string) :=
  [(q_previous doc, "click"%string); (q_next doc, "click"%string);
   (q_navigateBack doc, "click"%string); (q_pageNumber doc, "change"%string)].

End Spec.
Export Spec.

(** ** Concrete surfaces, used to run the model *)

Module Examples.
Import Plugin Runtime.
Local Open Scope string_scope.

Definition page (t l w h : Z) : HTMLElement :=
  {| offsetTop := t; offsetLeft := l; clientWidth := w; clientHeight := h;
     scrollTop := 0%Q |}.

(** A viewport of 800 by 600 scrolled to [st], showing two pages. *)
Definition viewport (st : Q) : ViewerNode :=
  {| box := {| offsetTop := 0; offsetLeft := 0; clientWidth := 800;
               clientHeight := 600; scrollTop := st |};
     pages := [page 0 0 800 600; page 1200 200 400 600; page 1203 0 800 600] |}.

Definition toolbar : Document :=
  {| q_viewerFrame := Some 10%nat; q_previous := Some 11%nat; q_next := Some 12%nat;
     q_navigateBack := Some 13%nat; q_pageNumber := Some 14%nat |}.

Definition tab (kind : ReaderType) : ReaderInstance :=
  {| type := kind; tabID := "tab-1"; waitForReader := 0; initPromise := 1;
     iframeWindow := Some toolbar; lastView := 20 |}.

Definition frame (container : option nat) : Element :=
  {| tagName := "iframe"; contentDocument := Some {| q_viewerContainer := container |} |}.

Definition pdfView : View :=
  {| frameWindow :=
       Some {| application := Some {| pdfViewer := Some 40%nat; eventBus := Some 41%nat |} |};
     fn_navigateBack := native; fn_navigateToPreviousPage := native;
     fn_navigateToNextPage := native; fn_navigateToFirstPage := native;
     fn_navigateToLastPage := native |}.

Definition options : PluginOptions :=
  {| o_id := None; o_stylesId := None; o_version := "1.0.0"; o_rootURI := "root/" |}.

(** One reader tab (reference 1) of the given kind, whose readiness
    promises are in the given state, whose frame (element 10) holds the
    given container, with the toolbar controls 11 to 14 and the view 20. *)
Definition surfaceWorld (kind : ReaderType) (signal : PromiseState)
    (container : option nat) (st : Q) : World :=
  {| this := constructor options; addonName := "Center PDF"; debugLog := [];
     registry := []; promises := [signal; signal]; tasks := []; rejections := 0;
     readers := {[ 1%nat := tab kind ]};
     elements := {[ 10%nat := frame container ]};
     viewers := {[ 30%nat := viewport st ]};
     views := {[ 20%nat := pdfView ]};
     listeners := []; timers := []; calls := [];
     browser := fun _ ls => ls |}.

(** A pdf tab, ready, with the container 30 in place, scrolled to 1200. *)
Definition readyWorld : World := surfaceWorld pdf (fulfilled None) (Some 30%nat) (1200 # 1).

(** The same tab while its frame has no container yet. *)
Definition loadingWorld : World := surfaceWorld pdf (fulfilled None) None (1200 # 1).

(** The elements once the frame has loaded without a container. *)
Definition emptyFrame : gmap nat Element := {[ 10%nat := frame None ]}.

(** The toolbar without the button#previous control. *)
Definition toolbarNoPrevious : Document :=
  {| q_viewerFrame := Some 10%nat; q_previous := None; q_next := Some 12%nat;
     q_navigateBack := Some 13%nat; q_pageNumber := Some 14%nat |}.

Definition tabWith (doc : option Document) : ReaderInstance :=
  {| type := pdf; tabID := "tab-1"; waitForReader := 0; initPromise := 1;
     iframeWindow := doc; lastView := 20 |}.

(** The same tab without the button#previous control. *)
Definition noPreviousWorld : World :=
  step (s_mutate {[ 1%nat := tabWith (Some toolbarNoPrevious) ]}
          (elements readyWorld) (viewers readyWorld) (views readyWorld)) readyWorld.

(** The same tab whose reader has no content document. *)
Definition noDocumentWorld : World :=
  step (s_mutate {[ 1%nat := tabWith None ]}
          (elements readyWorld) (viewers readyWorld) (views readyWorld)) readyWorld.

(** The same tab whose view has no pdfViewer yet. *)
Definition noPdfViewerWorld : World :=
  step (s_mutate (readers readyWorld) (elements readyWorld) (viewers readyWorld)
          {[ 20%nat := {| frameWindow :=
                            Some {| application :=
                                      Some {| pdfViewer := None; eventBus := Some 41%nat |} |};
                          fn_navigateBack := native; fn_navigateToPreviousPage := native;
                          fn_navigateToNextPage := native; fn_navigateToFirstPage := native;
                          fn_navigateToLastPage := native |} ]}) readyWorld.

(** An epub tab whose readiness is still pending. *)
Definition epubWorld : World := surfaceWorld epub pending None 0%Q.

(** The tab scrolled between two pages: no page is within the tolerance. *)
Definition betweenPagesWorld : World := surfaceWorld pdf (fulfilled None) (Some 30%nat) (600 # 1).

(** A viewport of 800 by 600 scrolled to [st], its pages 600 apart. *)
Definition spacedViewport (st : Q) : ViewerNode :=
  {| box := {| offsetTop := 0; offsetLeft := 0; clientWidth := 800;
               clientHeight := 600; scrollTop := st |};
     pages := [page 0 0 800 600; page 600 0 800 600; page 1200 200 400 600] |}.

(** A toolbar with the frame but none of the four controls. *)
Definition toolbarEmpty : Document :=
  {| q_viewerFrame := Some 10%nat; q_previous := None; q_next := None;
     q_navigateBack := None; q_pageNumber := None |}.

Definition noControlsWorld : World :=
  step (s_mutate {[ 1%nat := tabWith (Some toolbarEmpty) ]}
          (elements readyWorld) (viewers readyWorld) (views readyWorld)) readyWorld.

(** A toolbar document in which the frame selector finds nothing. *)
Definition toolbarNoFrame : Document :=
  {| q_viewerFrame := None; q_previous := Some 11%nat; q_next := Some 12%nat;
     q_navigateBack := Some 13%nat; q_pageNumber := Some 14%nat |}.

Definition noFrameWorld : World :=
  step (s_mutate {[ 1%nat := tabWith (Some toolbarNoFrame) ]}
          (elements readyWorld) (viewers readyWorld) (views readyWorld)) readyWorld.

(** The element the frame selector finds is not an iframe. *)
Definition svgFrame : Element :=
  {| tagName := "svg:iframe"; contentDocument := None |}.

Definition notIframeWorld : World :=
  step (s_mutate (readers readyWorld) {[ 10%nat := svgFrame ]}
          (viewers readyWorld) (views readyWorld)) readyWorld.

(** A pdf tab whose readiness is still pending. *)
Definition waitingWorld : World := surfaceWorld pdf pending (Some 30%nat) (1200 # 1).

(** A pdf tab whose readiness has failed. *)
Definition failedWorld : World := surfaceWorld pdf rejected (Some 30%nat) (1200 # 1).

(** The elements once the frame has loaded with the container 30. *)
Definition loadedFrame : gmap nat Element := {[ 10%nat := frame (Some 30%nat) ]}.

End Examples.

(** * Properties *)

(** ** Geometry *)

Section GeometryFacts.
Import Geometry.

Lemma near_true viewer p : near viewer p = true <-> withinTolerance viewer p.
Proof.
  unfold near, withinTolerance.
  destruct (Qlt_le_dec _ _) as [Hlt | Hle]; split; intros H; try done.
  exfalso. exact (Qle_not_lt _ _ Hle H).
Qed.

Lemma near_false viewer p : near viewer p = false <-> ~ withinTolerance viewer p.
Proof.
  rewrite <- near_true. destruct (near viewer p); split; intros H; try done.
Qed.

(** The tolerance is strict: a page exactly 5 units away is not current. *)
Example near_at_5 :
  near {| offsetTop := 0; offsetLeft := 0; clientWidth := 800; clientHeight := 600;
          scrollTop := 95 # 1 |}
       {| offsetTop := 100; offsetLeft := 0; clientWidth := 800; clientHeight := 600;
          scrollTop := 0 |} = false.
Proof. reflexivity. Qed.

(** The loop returns the first page that passes the test, by position. *)
Lemma firstNear_Some viewer ps :
  (exists p, p ∈ ps /\ near viewer p = true) ->
  exists i p, ps !! i = Some p /\ firstNear viewer ps = Some p /\ near viewer p = true
    /\ forall j q, (j < i)%nat -> ps !! j = Some q -> near viewer q = false.
Proof.
  induction ps as [| a rest IH]; intros (p & Hin & Hp).
  - by apply elem_of_nil in Hin.
  - simpl. destruct (near viewer a) eqn:Ha.
    + exists 0%nat, a. repeat split; try done. intros j q Hj. lia.
    + apply elem_of_cons in Hin as [-> | Hin]; [congruence |].
      destruct IH as (i & q & Hi & Hf & Hq & Hbefore); [by exists p |].
      exists (S i), q. repeat split; try done.
      intros [| j] q' Hj Hq'; simpl in Hq'.
      * congruence.
      * apply (Hbefore j); [lia | done].
Qed.

Lemma firstNear_None viewer ps :
  (forall p, p ∈ ps -> near viewer p = false) -> firstNear viewer ps = None.
Proof.
  induction ps as [| a rest IH]; intros H; [done |].
  simpl. rewrite (H a) by apply list_elem_of_here.
  apply IH. intros p Hp. apply H. by apply list_elem_of_further.
Qed.

(** C1. For every viewport V and page P, getScrollTarget(V, P) is exactly
    top = P.offsetTop + (P.clientHeight - V.clientHeight)/2 and
    left = P.offsetLeft + (P.clientWidth - V.clientWidth)/2, whatever the
    sign of the slack; a page of width 400 at offsetLeft 200 in a viewport
    of width 800 gets left = 0.  The function is the same text in both
    files. *)
Theorem getScrollTarget_centres :
  (forall V P : HTMLElement,
     top (getScrollTarget V P)
       == inject_Z (offsetTop P) + (inject_Z (clientHeight P) - inject_Z (clientHeight V)) / 2
     /\ left (getScrollTarget V P)
       == inject_Z (offsetLeft P) + (inject_Z (clientWidth P) - inject_Z (clientWidth V)) / 2)%Q
  /\ (forall (pt ph vt vl vh : Z) (ps vs : Q),
        left (getScrollTarget
                {| offsetTop := vt; offsetLeft := vl; clientWidth := 800;
                   clientHeight := vh; scrollTop := vs |}
                {| offsetTop := pt; offsetLeft := 200; clientWidth := 400;
                   clientHeight := ph; scrollTop := ps |}) == 0)%Q.
Proof.
  split.
  - intros V P. unfold getScrollTarget. simpl.
    unfold Z.sub. rewrite !inject_Z_plus, !inject_Z_opp. split; field.
  - intros. unfold getScrollTarget. simpl. reflexivity.
Qed.

(** C2. When some page of the list is within the tolerance of the
    viewport's scrollTop, getCurrentPage returns a page within the
    tolerance, and it is the first such page of the list: every page
    before it is outside the tolerance. *)
Theorem getCurrentPage_first_within (viewer : ViewerNode)
    (H : exists p, p ∈ pages viewer /\ withinTolerance (box viewer) p) :
  exists i p,
    pages viewer !! i = Some p
    /\ getCurrentPage viewer = Some p
    /\ withinTolerance (box viewer) p
    /\ forall j q, (j < i)%nat -> pages viewer !! j = Some q ->
         ~ withinTolerance (box viewer) q.
Proof.
  destruct H as (p & Hin & Hp).
  destruct (firstNear_Some (box viewer) (pages viewer)) as (i & q & Hi & Hf & Hq & Hb).
  { exists p. split; [done |]. by apply near_true. }
  exists i, q. repeat split; try done.
  - by apply near_true.
  - intros j q' Hj Hq'. apply near_false. by apply (Hb j).
Qed.

End GeometryFacts.

(** ** The plugin object is never written *)

Section ThisFrame.
Import Plugin Runtime.

Lemma this_log msg w : this (log msg w) = this w.
Proof. reflexivity. Qed.

Lemma this_note c w : this (note c w) = this w.
Proof. reflexivity. Qed.

Lemma this_call c w : this (call c w) = this w.
Proof. reflexivity. Qed.

Lemma this_reject w : this (reject w) = this w.
Proof. reflexivity. Qed.

Lemma this_addEventListener t ty cb w : this (addEventListener t ty cb w) = this w.
Proof. unfold addEventListener. by case_bool_decide. Qed.

Lemma this_addEventListener_opt t ty cb w : this (addEventListener_opt t ty cb w) = this w.
Proof. destruct t; [apply this_addEventListener | done]. Qed.

Lemma this_queryViewerContainer f w : this (queryViewerContainer f w).2 = this w.
Proof. unfold queryViewerContainer. by destruct (_ ≫= _). Qed.

Lemma this_getViewerContainer f w : this (getViewerContainer f w).2 = this w.
Proof.
  unfold getViewerContainer, queryViewerContainer. simpl.
  destruct (_ ≫= _) as [d |]; simpl.
  - destruct (q_viewerContainer d); simpl; [done |]. by rewrite this_addEventListener.
  - by rewrite this_addEventListener.
Qed.

Lemma this_findFrame reader w : this (findFrame reader w).2 = this w.
Proof.
  unfold findFrame. destruct (iframeWindow reader) as [doc |]; [| done].
  destruct (q_viewerFrame doc) as [f |]; [| done]. simpl.
  destruct (elements w !! f) as [e |]; [| done]. by destruct (isIframe e).
Qed.

Lemma this_await p k now w :
  (forall v w', this (now v w') = this w') -> this (await p k now w) = this w.
Proof. intros H. unfold await. destruct (promiseState w p); [done | apply H | done]. Qed.

Lemma this_centerCurrentPage v w : this (centerCurrentPage v w) = this w.
Proof. unfold centerCurrentPage. by destruct (Geometry.getCurrentPage _). Qed.

Lemma this_Listener_attach a b c d v w : this (Listener.attach a b c d v w) = this w.
Proof.
  unfold Listener.attach. destruct v; [| done].
  by rewrite this_log, !this_addEventListener_opt.
Qed.

Lemma this_Listener_lookup r w : this (Listener.lookup r w) = this w.
Proof.
  unfold Listener.lookup. destruct (readers w !! r) as [reader |]; [| done].
  pose proof (this_findFrame reader w) as Hf.
  destruct (findFrame reader w) as [[f |] w1]; simpl in Hf;
    destruct (iframeWindow reader); rewrite ?this_log; try done.
  pose proof (this_getViewerContainer f
    (note (c_querySelector sel_pageNumber) (note (c_querySelector sel_navigateBack)
      (note (c_querySelector sel_next) (note (c_querySelector sel_previous) w1))))) as Hg.
  destruct (getViewerContainer _ _) as [p w2]. simpl in Hg.
  rewrite this_await; [congruence |]. intros. apply this_Listener_attach.
Qed.

Lemma this_Listener_init r w : this (Listener.init r w) = this w.
Proof.
  unfold Listener.init. destruct (readers w !! r); [| done].
  apply this_await. intros. apply this_Listener_lookup.
Qed.

Lemma this_Listener_addListeners r w : this (Listener.addListeners r w) = this w.
Proof.
  unfold Listener.addListeners. destruct (readers _ !! r); [| done].
  rewrite this_await; [done |]. intros. apply this_Listener_init.
Qed.

Lemma this_Override_attach r v w : this (Override.attach r v w) = this w.
Proof.
  unfold Override.attach. destruct (readers w !! r) as [reader |]; [| done].
  destruct (views w !! _) as [view |]; [| done].
  by destruct (Override.readApplication pdfViewer view) as [[] |],
    (Override.readApplication eventBus view) as [[] |], v.
Qed.

Lemma this_Override_lookup r w : this (Override.lookup r w) = this w.
Proof.
  unfold Override.lookup. destruct (readers w !! r) as [reader |]; [| done].
  pose proof (this_findFrame reader w) as Hf.
  destruct (findFrame reader w) as [[f |] w1]; simpl in Hf; rewrite ?this_log; try done.
  pose proof (this_getViewerContainer f w1) as Hg.
  destruct (getViewerContainer _ _) as [p w2]. simpl in Hg.
  rewrite this_await; [congruence |]. intros. apply this_Override_attach.
Qed.

Lemma this_Override_init r w : this (Override.init r w) = this w.
Proof.
  unfold Override.init. destruct (readers w !! r); [| done].
  apply this_await. intros. apply this_Override_lookup.
Qed.

Lemma this_Override_addListeners r w : this (Override.addListeners r w) = this w.
Proof.
  unfold Override.addListeners. destruct (readers _ !! r); [| done].
  rewrite this_await; [done |]. intros. apply this_Override_init.
Qed.

Lemma this_Override_onRenderToolbar r w : this (Override.onRenderToolbar r w) = this w.
Proof.
  unfold Override.onRenderToolbar. destruct (readers w !! r) as [reader |]; [| done].
  destruct (Override.isPDFReader reader); [apply this_Override_addListeners | done].
Qed.

Lemma this_resume k v w : this (resume k v w) = this w.
Proof.
  destruct k as [[] r | [] r | a b c d | r]; simpl;
    auto using this_Listener_init, this_Override_init, this_Listener_lookup,
      this_Override_lookup, this_Listener_attach, this_Override_attach.
Qed.

Lemma this_fold {A} (f : World -> A -> World) (l : list A) w :
  (forall w a, this (f w a) = this w) -> this (fold_left f l w) = this w.
Proof.
  intros H. revert w. induction l as [| a l IH]; intros w; [done |].
  simpl. by rewrite IH, H.
Qed.

Lemma this_settle p o w : this (settle p o w) = this w.
Proof.
  unfold settle. destruct (promises w !! p) as [[] |]; try done.
  destruct o; rewrite this_fold; try done.
  intros. apply this_resume.
Qed.

Lemma this_invoke cb w : this (invoke cb w) = this w.
Proof.
  destruct cb as [c v | v | f p | n]; simpl; try done.
  - apply this_centerCurrentPage.
  - pose proof (this_queryViewerContainer f w) as Hq.
    destruct (queryViewerContainer f w) as [v w1]. simpl in Hq.
    by rewrite this_settle.
Qed.

Lemma this_step s w : this (step s w) = this w.
Proof.
  destruct s as [| | [] r | [] r | v | m | p o | t ty | | view op | | rs es ls vs];
    simpl; try done.
  - apply this_Listener_addListeners.
  - apply this_Override_onRenderToolbar.
  - apply this_Listener_addListeners.
  - apply this_Override_addListeners.
  - apply this_centerCurrentPage.
  - apply this_settle.
  - unfold dispatchEvent. apply this_fold. intros. apply this_invoke.
  - unfold runTimer. destruct (timers w); [done |]. by rewrite this_invoke.
  - unfold navigate. destruct (slot op <$> views w !! view) as [[] |]; try done.
    by rewrite this_centerCurrentPage.
Qed.

Lemma this_run ss w : this (run ss w) = this w.
Proof. unfold run. apply this_fold. intros. apply this_step. Qed.

End ThisFrame.

(** ** Configuration and the [isActive] getter *)

Section Lifetime.
Import Plugin Runtime.

(** C9. The four configuration values are those given to the constructor
    (with its two defaults), and no operation of the plugin, nor anything
    that happens around it, changes [id], [version], [rootURI] or
    [stylesId]. *)
Theorem configuration_immutable :
  (forall (s : Step) (w : World),
     id (this (step s w)) = id (this w)
     /\ version (this (step s w)) = version (this w)
     /\ rootURI (this (step s w)) = rootURI (this w)
     /\ stylesId (this (step s w)) = stylesId (this w))
  /\ (forall (o : PluginOptions) (name : string) (ss : list Step),
        let p := this (run ss (fresh o name)) in
        id p = default "center-pdf@dylan.ac"%string (o_id o)
        /\ version p = o_version o
        /\ rootURI p = o_rootURI o
        /\ stylesId p = default "pluginStyles"%string (o_stylesId o)).
Proof.
  split.
  - intros s w. by rewrite this_step.
  - intros o name ss. simpl. by rewrite this_run.
Qed.

(** C10. The getter [isActive] answers true during the whole life of a
    plugin object: the field starts as true and nothing, [shutdown]
    included, writes it. *)
Theorem isActive_always_true (o : PluginOptions) (w : World) (ss : list Step)
    (H : this w = constructor o) :
  isActive (this (run ss w)) = true
  /\ isActive (this (run (ss ++ [s_shutdown]) w)) = true.
Proof. by rewrite !this_run, H. Qed.

End Lifetime.

(** ** Centring *)

Section Centring.
Import Plugin Runtime Geometry.

Lemma centerCurrentPage_calls v w :
  calls (centerCurrentPage v w)
  = calls w ++ c_querySelectorAll sel_pages ::
      match getCurrentPage (layout w v) with
      | Some page => [c_scrollTo v (getScrollTarget (box (layout w v)) page)]
      | None => []
      end.
Proof.
  unfold centerCurrentPage. destruct (getCurrentPage _); simpl; [| done].
  by rewrite <- app_assoc.
Qed.

(** C4. When no page of the viewport is within the tolerance (the empty
    list included) getCurrentPage returns none, and centerCurrentPage
    only reports that it could not identify the current page: its one
    foreign call is the page query, there is no scrollTo, and the layout
    and scroll position stay as they are. *)
Theorem centerCurrentPage_without_page (w : World) (v : nat)
    (H : forall p, p ∈ pages (layout w v) -> ~ withinTolerance (box (layout w v)) p) :
  getCurrentPage (layout w v) = None
  /\ debugLog (centerCurrentPage v w)
     = debugLog w ++ [line w (text "couldn't identify current page")]
  /\ calls (centerCurrentPage v w) = calls w ++ [c_querySelectorAll sel_pages]
  /\ viewers (centerCurrentPage v w) = viewers w
  /\ layout (centerCurrentPage v w) v = layout w v.
Proof.
  assert (getCurrentPage (layout w v) = None) as Hnone.
  { apply firstNear_None. intros p Hp. apply near_false. by apply H. }
  split; [done |].
  rewrite centerCurrentPage_calls. unfold centerCurrentPage, layout in *.
  by rewrite Hnone.
Qed.

End Centring.

(** ** The attachment sequence, step by step *)

Section Lookups.
Import Plugin Runtime.

Lemma findFrame_eq reader w :
  findFrame reader w
  = (frameOf w reader,
     match iframeWindow reader with
     | Some _ => note (c_querySelector sel_viewerFrame) w
     | None => w
     end).
Proof.
  unfold frameOf, findFrame. destruct (iframeWindow reader) as [doc |]; [| done].
  destruct (q_viewerFrame doc) as [f |]; [| done]. simpl.
  destruct (elements w !! f) as [e |]; [| done]. by destruct (isIframe e).
Qed.

Lemma frameOf_elements w w' reader :
  elements w' = elements w -> frameOf w' reader = frameOf w reader.
Proof.
  intros H. unfold frameOf, findFrame. destruct (iframeWindow reader) as [doc |]; [| done].
  destruct (q_viewerFrame doc) as [f |]; [| done]. simpl. rewrite H.
  destruct (elements w !! f) as [e |]; [| done]. by destruct (isIframe e).
Qed.

Lemma frameOf_document w reader f :
  frameOf w reader = Some f -> exists doc, iframeWindow reader = Some doc.
Proof.
  unfold frameOf, findFrame. destruct (iframeWindow reader) as [doc |]; [eauto | done].
Qed.

Lemma queryViewerContainer_eq f w :
  queryViewerContainer f w
  = (containerOf (elements w) f,
     match elements w !! f ≫= contentDocument with
     | Some _ => note (c_querySelector sel_viewerContainer) w
     | None => w
     end).
Proof.
  unfold queryViewerContainer, containerOf. by destruct (_ ≫= contentDocument).
Qed.

Lemma surface_inv w r reader fr :
  surface w r = Some (reader, fr) ->
  readers w !! r = Some reader
  /\ (exists a, promiseState w (waitForReader reader) = fulfilled a)
  /\ (exists b, promiseState w (initPromise reader) = fulfilled b)
  /\ fr = frameOf w reader.
Proof.
  unfold surface, ready. destruct (readers w !! r) as [rd |]; simpl; [| done].
  destruct (promiseState w (waitForReader rd)) eqn:H1; simpl; try done.
  destruct (promiseState w (initPromise rd)) eqn:H2; simpl; try done.
  intros [= <- <-]. eauto 10.
Qed.

Lemma scaffold_inv w r reader f v :
  scaffold w r = Some (reader, f, v) ->
  surface w r = Some (reader, Some f) /\ containerOf (elements w) f = Some v.
Proof.
  unfold scaffold. destruct (surface w r) as [[rd [fr |]] |]; simpl; try done.
  destruct (containerOf (elements w) fr) eqn:Hc; simpl; [| done].
  by intros [= <- <- <-].
Qed.

(** With the surface ready, [addListeners] runs through both awaits. *)
Lemma Listener_addListeners_ready w r reader fr :
  surface w r = Some (reader, fr) ->
  Listener.addListeners r w = Listener.lookup r (log (text "adding page listeners") w).
Proof.
  intros (Hr & [a Ha] & [b Hb] & _)%surface_inv.
  unfold Listener.addListeners, Listener.init, await.
  change (readers (log _ w)) with (readers w).
  change (promiseState (log ?m w)) with (promiseState w).
  rewrite Hr. by rewrite Ha, Hb.
Qed.

Lemma Override_addListeners_ready w r reader fr :
  surface w r = Some (reader, fr) ->
  Override.addListeners r w = Override.lookup r (log (text "adding page listeners") w).
Proof.
  intros (Hr & [a Ha] & [b Hb] & _)%surface_inv.
  unfold Override.addListeners, Override.init, await.
  change (readers (log _ w)) with (readers w).
  change (promiseState (log ?m w)) with (promiseState w).
  rewrite Hr. by rewrite Ha, Hb.
Qed.

(** No frame: both files log the diagnostic and return. *)
Lemma Listener_no_frame w r reader :
  surface w r = Some (reader, None) ->
  Listener.addListeners r w
  = log (notReady (tabID reader)) (findFrame reader (entered w)).2.
Proof.
  intros Hs. rewrite (Listener_addListeners_ready _ _ _ _ Hs).
  apply surface_inv in Hs as (Hr & _ & _ & Hf).
  unfold Listener.lookup, entered. simpl. rewrite Hr.
  rewrite !findFrame_eq, (frameOf_elements w (log _ w) reader eq_refl), <- Hf.
  by destruct (iframeWindow reader).
Qed.

Lemma Override_no_frame w r reader :
  surface w r = Some (reader, None) ->
  Override.addListeners r w
  = log (notReady (tabID reader)) (findFrame reader (entered w)).2.
Proof.
  intros Hs. rewrite (Override_addListeners_ready _ _ _ _ Hs).
  apply surface_inv in Hs as (Hr & _ & _ & Hf).
  unfold Override.lookup, entered. simpl. rewrite Hr.
  by rewrite !findFrame_eq, (frameOf_elements w (log _ w) reader eq_refl), <- Hf.
Qed.

End Lookups.

Section Container.
Import Plugin Runtime.

Lemma insert_last {A} (l : list A) (x y : A) : <[length l := y]> (l ++ [x]) = l ++ [y].
Proof. induction l as [| a l IH]; [done |]. simpl. by rewrite IH. Qed.

Lemma lookup_last {A} (l : list A) (x : A) : (l ++ [x]) !! length l = Some x.
Proof. induction l as [| a l IH]; [done |]. simpl. by rewrite IH. Qed.

Lemma getViewerContainer_found f w v :
  containerOf (elements w) f = Some v ->
  getViewerContainer f w
  = (length (promises w),
     set_promises (promises w ++ [fulfilled (Some v)])
       (note (c_querySelector sel_viewerContainer) w)).
Proof.
  intros H. unfold getViewerContainer. rewrite queryViewerContainer_eq.
  change (elements (set_promises _ w)) with (elements w). rewrite H.
  unfold containerOf in H.
  destruct (elements w !! f ≫= contentDocument); [| done].
  simpl. by rewrite insert_last.
Qed.

Lemma getViewerContainer_absent f w :
  containerOf (elements w) f = None ->
  getViewerContainer f w
  = (length (promises w),
     addEventListener f "load" (loadResolve f (length (promises w)))
       (set_promises (promises w ++ [pending])
          match elements w !! f ≫= contentDocument with
          | Some _ => note (c_querySelector sel_viewerContainer) w
          | None => w
          end)).
Proof.
  intros H. unfold getViewerContainer. rewrite queryViewerContainer_eq.
  change (elements (set_promises _ w)) with (elements w). rewrite H.
  by destruct (elements w !! f ≫= contentDocument).
Qed.

End Container.

Section ContainerPromise.
Import Plugin Runtime.

Lemma listenersOn_nil_notin t ty cb w :
  listenersOn t ty w = [] -> (t, ty, cb) ∉ listeners w.
Proof.
  unfold listenersOn. intros H%fmap_nil_inv Hin.
  assert ((t, ty, cb) ∈ filter (fun l : nat * string * Callback => l.1 = (t, ty)) (listeners w)) as Hf.
  { apply list_elem_of_filter. by split. }
  rewrite H in Hf. by apply elem_of_nil in Hf.
Qed.

Lemma no_task_on_fresh (ts : list (nat * Cont)) (n : nat) :
  Forall (fun t => (t.1 < n)%nat) ts ->
  filter (fun t : nat * Cont => t.1 = n) ts = []
  /\ filter (fun t : nat * Cont => t.1 <> n) ts = ts.
Proof.
  induction 1 as [| t ts Ht _ [IH1 IH2]]; [done |].
  rewrite !filter_cons. destruct (decide (t.1 = n)) as [E | E]; [lia |].
  destruct (decide (t.1 <> n)); [| done]. by rewrite IH1, IH2.
Qed.

Lemma dispatchEvent_single W t ty cb :
  filter (fun l : nat * string * Callback => l.1 = (t, ty)) (listeners W) = [(t, ty, cb)] ->
  dispatchEvent t ty W = invoke cb W.
Proof. intros H. unfold dispatchEvent. by rewrite H. Qed.

Lemma invoke_loadResolve W f p :
  invoke (loadResolve f p) W
  = settle p (ok (containerOf (elements W) f)) (queryViewerContainer f W).2.
Proof. simpl. by rewrite queryViewerContainer_eq. Qed.

Lemma settle_unparked W p v :
  promises W !! p = Some pending ->
  filter (fun t : nat * Cont => t.1 = p) (tasks W) = [] ->
  settle p (ok v) W
  = set_promises (<[p := fulfilled v]> (promises W))
      (set_tasks (filter (fun t : nat * Cont => t.1 <> p) (tasks W)) W).
Proof. intros Hp Hw. unfold settle. by rewrite Hp, Hw. Qed.

Lemma filter_snoc_key (ls : list (nat * string * Callback)) t ty cb :
  filter (fun l : nat * string * Callback => l.1 = (t, ty)) (ls ++ [(t, ty, cb)])
  = filter (fun l : nat * string * Callback => l.1 = (t, ty)) ls ++ [(t, ty, cb)].
Proof.
  rewrite filter_app. f_equal. rewrite filter_cons. simpl.
  by destruct (decide ((t, ty) = (t, ty))).
Qed.

(** C8. getViewerContainer resolves at once with the container when the
    frame's content document already has it, and then adds no load
    listener; otherwise the promise stays pending with one load listener
    on the frame, and when the load event fires the lookup is made once
    more and the promise is fulfilled with the container found then, or
    with none.  The promise is never rejected and nothing is thrown. *)
Theorem getViewerContainer_settles (w : World) (f : nat) (es : gmap nat Element)
    (Hl : listenersOn f "load" w = [])
    (Ht : Forall (fun t => (t.1 < length (promises w))%nat) (tasks w)) :
  let p := (getViewerContainer f w).1 in
  let w1 := (getViewerContainer f w).2 in
  match containerOf (elements w) f with
  | Some v =>
      promiseState w1 p = fulfilled (Some v)
      /\ listeners w1 = listeners w
      /\ rejections w1 = rejections w
  | None =>
      promiseState w1 p = pending
      /\ listenersOn f "load" w1 = [loadResolve f p]
      /\ let w2 := dispatchEvent f "load" (atLoad es w1) in
         promiseState w2 p = fulfilled (containerOf es f)
         /\ calls w2
            = calls w1 ++ match es !! f ≫= contentDocument with
                          | Some _ => [c_querySelector sel_viewerContainer]
                          | None => []
                          end
         /\ rejections w2 = rejections w
  end.
Proof.
  destruct (containerOf (elements w) f) as [v |] eqn:Hc.
  - rewrite (getViewerContainer_found _ _ _ Hc). simpl.
    unfold promiseState. simpl. by rewrite lookup_last.
  - rewrite (getViewerContainer_absent _ _ Hc). simpl.
    set (p := length (promises w)).
    pose proof (listenersOn_nil_notin f "load" (loadResolve f p) w Hl) as Hnotin.
    apply fmap_nil_inv in Hl.
    destruct (no_task_on_fresh _ _ Ht) as [Hnone Hall].
    unfold addEventListener.
    assert (forall W, listeners W = listeners w ->
              bool_decide ((f, "load"%string, loadResolve f p) ∈ listeners W) = false) as Hdec.
    { intros W ->. by apply bool_decide_eq_false. }
    rewrite Hdec by (by destruct (elements w !! f ≫= contentDocument)).
    set (W := match elements w !! f ≫= contentDocument with
              | Some _ => note (c_querySelector sel_viewerContainer) w
              | None => w
              end).
    assert (listeners W = listeners w /\ tasks W = tasks w /\ promises W = promises w
            /\ rejections W = rejections w) as (HWl & HWt & HWp & HWr).
    { subst W. by destruct (elements w !! f ≫= contentDocument). }
    clearbody W. subst p. simpl. rewrite HWl.
    split; [| split].
    + unfold promiseState. simpl. by rewrite lookup_last.
    + unfold listenersOn. simpl. by rewrite filter_snoc_key, Hl.
    + rewrite (dispatchEvent_single _ f "load" (loadResolve f (length (promises w))))
        by (simpl; by rewrite filter_snoc_key, Hl).
      rewrite invoke_loadResolve, queryViewerContainer_eq. simpl.
      rewrite settle_unparked.
      * unfold promiseState, atLoad.
        destruct (es !! f ≫= contentDocument); simpl;
          rewrite insert_last, lookup_last, HWr; by rewrite ?app_nil_r.
      * destruct (es !! f ≫= contentDocument); simpl; apply lookup_last.
      * destruct (es !! f ≫= contentDocument); simpl; by rewrite HWt.
Qed.

End ContainerPromise.

(** ** A run that finds its scaffold *)

Section Found.
Import Plugin Runtime.

Lemma scaffold_later w w' r x :
  readers w' = readers w -> elements w' = elements w ->
  (exists extra, promises w' = promises w ++ extra) ->
  scaffold w r = Some x -> scaffold w' r = Some x.
Proof.
  intros Hr He [extra Hp]. unfold scaffold, surface, ready. rewrite Hr, He.
  destruct (readers w !! r) as [reader |]; simpl; [| done].
  rewrite (frameOf_elements w w' reader He).
  assert (forall p, isFulfilled (promiseState w p) = true ->
            promiseState w' p = promiseState w p) as Hold.
  { intros p Hf. unfold promiseState in *. rewrite Hp.
    destruct (promises w !! p) eqn:E; [| done].
    by rewrite (lookup_app_l_Some _ _ _ _ E). }
  destruct (isFulfilled (promiseState w (waitForReader reader))) eqn:H1; [| done].
  destruct (isFulfilled (promiseState w (initPromise reader))) eqn:H2; [| done].
  by rewrite (Hold _ H1), (Hold _ H2), H1, H2.
Qed.

Lemma await_fulfilled p k now w v :
  promiseState w p = fulfilled v -> await p k now w = now v w.
Proof. intros H. unfold await. by rewrite H. Qed.

Lemma Listener_found w r reader f v :
  scaffold w r = Some (reader, f, v) ->
  exists doc w',
    iframeWindow reader = Some doc
    /\ lookedUp w w' v
    /\ Listener.addListeners r w
       = Listener.attach (q_previous doc) (q_next doc) (q_navigateBack doc)
           (q_pageNumber doc) (Some v) w'.
Proof.
  intros [Hs Hc]%scaffold_inv.
  rewrite (Listener_addListeners_ready _ _ _ _ Hs).
  apply surface_inv in Hs as (Hr & _ & _ & Hf). symmetry in Hf.
  destruct (frameOf_document _ _ _ Hf) as [doc Hdoc].
  exists doc. unfold Listener.lookup.
  change (readers (log _ w)) with (readers w). rewrite Hr, findFrame_eq.
  rewrite (frameOf_elements w (log _ w) reader eq_refl), Hf, Hdoc.
  rewrite getViewerContainer_found with (v := v) by done.
  eexists. split; [done |]. split; [| apply await_fulfilled].
  - by repeat split.
  - unfold promiseState. simpl. by rewrite lookup_last.
Qed.

Lemma Override_found w r reader f v :
  scaffold w r = Some (reader, f, v) ->
  exists w', lookedUp w w' v /\ Override.addListeners r w = Override.attach r (Some v) w'.
Proof.
  intros [Hs Hc]%scaffold_inv.
  rewrite (Override_addListeners_ready _ _ _ _ Hs).
  apply surface_inv in Hs as (Hr & _ & _ & Hf). symmetry in Hf.
  destruct (frameOf_document _ _ _ Hf) as [doc Hdoc].
  unfold Override.lookup.
  change (readers (log _ w)) with (readers w). rewrite Hr, findFrame_eq.
  rewrite (frameOf_elements w (log _ w) reader eq_refl), Hf, Hdoc.
  rewrite getViewerContainer_found with (v := v) by done.
  eexists. split; [| apply await_fulfilled].
  - by repeat split.
  - unfold promiseState. simpl. by rewrite lookup_last.
Qed.

End Found.

(** ** What [attach] of the first file leaves on the controls *)

Section Handlers.
Import Plugin Runtime.

Lemma set_listeners_same w : set_listeners (listeners w) w = w.
Proof. by destruct w. Qed.

Lemma addEventListener_shape t ty cb w :
  addEventListener t ty cb w = set_listeners (listeners (addEventListener t ty cb w)) w.
Proof.
  unfold addEventListener. case_bool_decide; [by rewrite set_listeners_same | done].
Qed.

Lemma addEventListener_opt_shape t ty cb w :
  addEventListener_opt t ty cb w
  = set_listeners (listeners (addEventListener_opt t ty cb w)) w.
Proof. destruct t; [apply addEventListener_shape | by rewrite set_listeners_same]. Qed.

Lemma Listener_attach_shape a b c d v w :
  Listener.attach a b c d (Some v) w
  = log (text "added page listeners")
      (set_listeners (listeners (Listener.attach a b c d (Some v) w)) w).
Proof.
  unfold Listener.attach.
  set (h := handler (newClosure w) v).
  rewrite (addEventListener_opt_shape a), (addEventListener_opt_shape b),
    (addEventListener_opt_shape c), (addEventListener_opt_shape d).
  reflexivity.
Qed.

Lemma newClosure_fresh w t ty v : (t, ty, handler (newClosure w) v) ∉ listeners w.
Proof.
  unfold newClosure. intros Hin.
  assert (forall (ls : list (nat * string * Callback)) x, x ∈ ls ->
            (match x.2 with handler c _ => c | _ => 0%nat end
             <= list_max (map (fun l : nat * string * Callback =>
                                match l.2 with handler c _ => c | _ => 0%nat end) ls))%nat)
    as Hmax.
  { induction ls as [| l ls IH]; intros x Hx.
    - by apply elem_of_nil in Hx.
    - apply elem_of_cons in Hx as [-> | Hx]; simpl; [lia |].
      specialize (IH x Hx). lia. }
  specialize (Hmax _ _ Hin). simpl in Hmax. lia.
Qed.

Lemma elem_of_listenersOn t ty cb w : cb ∈ listenersOn t ty w <-> (t, ty, cb) ∈ listeners w.
Proof.
  unfold listenersOn. rewrite list_elem_of_fmap. split.
  - intros ([[t' ty'] cb'] & -> & [Hk Hin]%list_elem_of_filter). simpl in *. congruence.
  - intros H. exists (t, ty, cb). split; [done |]. by apply list_elem_of_filter.
Qed.

Lemma listenersOn_snoc t ty t' ty' cb w ls :
  listeners w = ls ->
  forall w', listeners w' = ls ++ [(t', ty', cb)] ->
  listenersOn t ty w'
  = listenersOn t ty w ++ (if decide ((t', ty') = (t, ty)) then [cb] else []).
Proof.
  intros <- w' H'. unfold listenersOn. rewrite H', filter_app, fmap_app. f_equal.
  rewrite filter_cons. simpl. by destruct (decide ((t', ty') = (t, ty))).
Qed.

(** One [target?.addEventListener(type, h)] seen from the listeners of
    [t] and [ty]: once [h] is there it stays the last one, and a matching
    target puts it there. *)
Lemma addEventListener_opt_cases t ty base h target ty' w :
  h ∉ base ->
  listenersOn t ty w = base \/ listenersOn t ty w = base ++ [h] ->
  let L' := listenersOn t ty (addEventListener_opt target ty' h w) in
  (L' = base \/ L' = base ++ [h])
  /\ (listenersOn t ty w = base ++ [h] -> L' = base ++ [h])
  /\ (target = Some t -> ty' = ty -> L' = base ++ [h]).
Proof.
  intros Hfresh HL. destruct target as [n |]; simpl; [| by repeat split].
  unfold addEventListener. case_bool_decide as Hin.
  - repeat split; try done.
    intros [= ->] ->. apply elem_of_listenersOn in Hin.
    destruct HL as [HL | HL]; [| done]. by rewrite HL in Hin.
  - rewrite (listenersOn_snoc t ty n ty' h w (listeners w) eq_refl) by done.
    destruct (decide ((n, ty') = (t, ty))) as [[= -> ->] | Hne].
    + assert (h ∉ listenersOn t ty w) as Hnot by (by rewrite elem_of_listenersOn).
      destruct HL as [HL | HL].
      * rewrite HL. by repeat split; try right.
      * exfalso. apply Hnot. rewrite HL. apply elem_of_app. right. apply list_elem_of_here.
    + rewrite app_nil_r. repeat split; try done. intros [= ->] ->. by destruct Hne.
Qed.

(** After [attach] every control that is present carries the new
    handler as its last listener. *)
Lemma Listener_attach_installs a b c d v w t ty :
  (Some t, ty) ∈ [(a, "click"%string); (b, "click"%string); (c, "click"%string);
                  (d, "change"%string)] ->
  listenersOn t ty (Listener.attach a b c d (Some v) w)
  = listenersOn t ty w ++ [handler (newClosure w) v].
Proof.
  intros Hin. unfold Listener.attach.
  set (h := handler (newClosure w) v).
  set (base := listenersOn t ty w).
  assert (h ∉ base) as Hfresh.
  { subst base h. rewrite elem_of_listenersOn. apply newClosure_fresh. }
  change (listenersOn t ty (log ?m ?W)) with (listenersOn t ty W).
  destruct (addEventListener_opt_cases t ty base h a "click" w Hfresh (or_introl eq_refl))
    as (H1 & _ & M1).
  destruct (addEventListener_opt_cases t ty base h b "click" _ Hfresh H1) as (H2 & K2 & M2).
  destruct (addEventListener_opt_cases t ty base h c "click" _ Hfresh H2) as (H3 & K3 & M3).
  destruct (addEventListener_opt_cases t ty base h d "change" _ Hfresh H3) as (H4 & K4 & M4).
  simpl in *.
  rewrite !elem_of_cons in Hin. destruct Hin as [E | [E | [E | [E | E]]]].
  - injection E as <- ->. auto.
  - injection E as <- ->. auto.
  - injection E as <- ->. auto.
  - injection E as <- ->. auto.
  - by apply elem_of_nil in E.
Qed.

End Handlers.

(** ** Running the attachment sequence again *)

Section Repeated.
Import Plugin Runtime.

Lemma Listener_attach_frame a b c d v w :
  let w1 := Listener.attach a b c d (Some v) w in
  readers w1 = readers w /\ elements w1 = elements w /\ promises w1 = promises w
  /\ debugLog w1 = debugLog w ++ [line w (text "added page listeners")]
  /\ addonName w1 = addonName w /\ views w1 = views w
  /\ rejections w1 = rejections w /\ tasks w1 = tasks w.
Proof. cbv zeta. rewrite Listener_attach_shape. by repeat split. Qed.

Lemma listenersOn_ext t ty w w' : listeners w' = listeners w -> listenersOn t ty w' = listenersOn t ty w.
Proof. unfold listenersOn. by intros ->. Qed.

Lemma newClosure_ext w w' : listeners w' = listeners w -> newClosure w' = newClosure w.
Proof. unfold newClosure. by intros ->. Qed.

Lemma loggedSince_app w w' ls : debugLog w' = debugLog w ++ ls -> loggedSince w w' = ls.
Proof. unfold loggedSince. intros ->. by rewrite drop_app_length. Qed.

Lemma viewerObjects_inv w reader pv eb :
  viewerObjects w reader = Some (pv, eb) ->
  exists view, views w !! lastView reader = Some view
    /\ appWindow view ≫= pdfViewer = Some pv /\ appWindow view ≫= eventBus = Some eb.
Proof.
  unfold viewerObjects. destruct (views w !! lastView reader) as [view |]; simpl; [| done].
  destruct (appWindow view ≫= pdfViewer) as [pv' |] eqn:Hpv; simpl; [| done].
  destruct (appWindow view ≫= eventBus) as [eb' |] eqn:Heb; simpl; [| done].
  intros [= <- <-]. by exists view.
Qed.

Lemma readApplication_Some view field a :
  appWindow view ≫= field = Some a ->
  Override.readApplication field view = Some (Some a).
Proof.
  unfold appWindow, Override.readApplication.
  destruct (frameWindow view) as [win |]; simpl; [| done].
  destruct (application win); simpl; [| done]. by intros ->.
Qed.

Lemma Override_attach_replaces w r reader pv eb v :
  readers w !! r = Some reader ->
  viewerObjects w reader = Some (pv, eb) ->
  exists view, views w !! lastView reader = Some view
    /\ Override.attach r (Some v) w
       = log (text "added page listeners")
           (set_views (<[lastView reader := replaced (lastView reader) pv eb v view]> (views w)) w).
Proof.
  intros Hr (view & Hv & Hpv & Heb)%viewerObjects_inv. exists view. split; [done |].
  unfold Override.attach.
  by rewrite Hr, Hv, (readApplication_Some _ _ _ Hpv), (readApplication_Some _ _ _ Heb).
Qed.

End Repeated.

Section Idempotence.
Import Plugin Runtime.

Lemma Listener_run w r reader f v :
  scaffold w r = Some (reader, f, v) ->
  let w1 := Listener.addListeners r w in
  scaffold w1 r = Some (reader, f, v)
  /\ debugLog w1
     = debugLog w ++ [line w (text "adding page listeners");
                      line w (text "added page listeners")]
  /\ addonName w1 = addonName w
  /\ views w1 = views w /\ rejections w1 = rejections w /\ tasks w1 = tasks w
  /\ forall doc t ty,
       iframeWindow reader = Some doc -> (Some t, ty) ∈ controls doc ->
       listenersOn t ty w1 = listenersOn t ty w ++ [handler (newClosure w) v].
Proof.
  intros Hs. cbv zeta.
  destruct (Listener_found _ _ _ _ _ Hs) as (doc & w' & Hdoc & Hl & ->).
  destruct Hl as (_ & Hn & Hlog & _ & Hp & Ht & Hrej & Hr & He & _ & Hv & Hls & _).
  destruct (Listener_attach_frame (q_previous doc) (q_next doc) (q_navigateBack doc)
              (q_pageNumber doc) v w') as (Ar & Ae & Ap & Alog & An & Av & Arej & At).
  repeat split.
  - apply (scaffold_later w); [congruence | congruence | | done].
    exists [fulfilled (Some v)]. congruence.
  - rewrite Alog, Hlog, <- app_assoc. unfold line. by rewrite Hn.
  - congruence.
  - congruence.
  - congruence.
  - congruence.
  - intros doc' t ty Hdoc' Hin. assert (doc' = doc) as -> by congruence.
    rewrite Listener_attach_installs by done.
    by rewrite (listenersOn_ext _ _ _ _ Hls), (newClosure_ext _ _ Hls).
Qed.

Lemma Override_run w r reader f v pv eb :
  scaffold w r = Some (reader, f, v) ->
  viewerObjects w reader = Some (pv, eb) ->
  let w1 := Override.addListeners r w in
  exists view,
    views w !! lastView reader = Some view
    /\ views w1 = <[lastView reader := replaced (lastView reader) pv eb v view]> (views w)
    /\ scaffold w1 r = Some (reader, f, v)
    /\ viewerObjects w1 reader = Some (pv, eb)
    /\ debugLog w1
       = debugLog w ++ [line w (text "adding page listeners");
                        line w (text "added page listeners")]
    /\ addonName w1 = addonName w
    /\ listeners w1 = listeners w /\ rejections w1 = rejections w /\ tasks w1 = tasks w.
Proof.
  intros Hs Ho. cbv zeta.
  destruct (Override_found _ _ _ _ _ Hs) as (w' & Hl & ->).
  destruct Hl as (_ & Hn & Hlog & _ & Hp & Ht & Hrej & Hr & He & _ & Hv & Hls & _).
  assert (readers w' !! r = Some reader) as Hrd.
  { rewrite Hr. apply scaffold_inv in Hs as [Hs _]. by apply surface_inv in Hs as [? _]. }
  assert (viewerObjects w' reader = Some (pv, eb)) as Ho'.
  { unfold viewerObjects. by rewrite Hv. }
  destruct (Override_attach_replaces _ _ _ _ _ v Hrd Ho') as (view & Hview & ->).
  apply viewerObjects_inv in Ho as (view0 & Hview0 & Hpv & Heb).
  rewrite Hv in Hview. assert (view0 = view) as -> by congruence.
  exists view. simpl. rewrite Hv. repeat split; try done.
  - apply (scaffold_later w); [done | done | | done].
    by exists [fulfilled (Some v)].
  - unfold viewerObjects. simpl. rewrite lookup_insert_eq. unfold appWindow in *. simpl.
    by rewrite Hpv, Heb.
  - rewrite Hlog, <- app_assoc. unfold line. by rewrite Hn.
Qed.

(** C3, as the code has it.  Neither file keeps an attachment record.
    In the first file each completed run of addListeners for a Surface
    adds one more handler, a new closure, to every control that is
    present: after two runs such a control carries two handlers.  In the
    second file a second completed run assigns the same five wrappers
    again, so the operations of the view are as the first run left them.
    In both files the second run repeats the lookups and the two log
    lines. *)
Theorem attachment_repeated (w : World) (r : nat) (reader : ReaderInstance) (f v : nat)
    (Hs : scaffold w r = Some (reader, f, v)) :
  (let w1 := Listener.addListeners r w in
   let w2 := Listener.addListeners r w1 in
   loggedSince w1 w2 = [line w (text "adding page listeners");
                        line w (text "added page listeners")]
   /\ forall doc t ty,
        iframeWindow reader = Some doc -> (Some t, ty) ∈ controls doc ->
        newClosure w <> newClosure w1
        /\ listenersOn t ty w2
           = listenersOn t ty w ++ [handler (newClosure w) v; handler (newClosure w1) v])
  /\ (forall pv eb,
        viewerObjects w reader = Some (pv, eb) ->
        let w1 := Override.addListeners r w in
        let w2 := Override.addListeners r w1 in
        views w2 = views w1
        /\ (forall op, slot op <$> views w2 !! lastView reader
                       = Some (centering (primitiveOf (lastView reader) pv eb op) v))
        /\ loggedSince w1 w2 = [line w (text "adding page listeners");
                                line w (text "added page listeners")]).
Proof.
  split.
  - cbv zeta.
    destruct (Listener_run _ _ _ _ _ Hs) as (Hs1 & Hlog1 & Hn1 & _ & _ & _ & Hon1).
    destruct (Listener_run _ _ _ _ _ Hs1) as (_ & Hlog2 & _ & _ & _ & _ & Hon2).
    split.
    + apply loggedSince_app. rewrite Hlog2. unfold line. by rewrite Hn1.
    + intros doc t ty Hdoc Hin. split.
      * intros E.
        apply (newClosure_fresh (Listener.addListeners r w) t ty v).
        apply elem_of_listenersOn. rewrite (Hon1 doc t ty Hdoc Hin), <- E.
        apply elem_of_app. right. apply list_elem_of_here.
      * rewrite (Hon2 doc t ty Hdoc Hin), (Hon1 doc t ty Hdoc Hin).
        by rewrite <- app_assoc.
  - intros pv eb Ho. cbv zeta.
    destruct (Override_run _ _ _ _ _ _ _ Hs Ho)
      as (view & Hview & Hv1 & Hs1 & Ho1 & Hlog1 & Hn1 & _).
    destruct (Override_run _ _ _ _ _ _ _ Hs1 Ho1)
      as (view1 & Hview1 & Hv2 & _ & _ & Hlog2 & _).
    rewrite Hv1, lookup_insert_eq in Hview1. injection Hview1 as <-.
    assert (views (Override.addListeners r (Override.addListeners r w))
            = views (Override.addListeners r w)) as Hsame.
    { rewrite Hv2, Hv1. by rewrite insert_insert_eq. }
    split; [done |]. split.
    + intros op. rewrite Hsame, Hv1, lookup_insert_eq. by destruct op.
    + apply loggedSince_app. rewrite Hlog2. unfold line. by rewrite Hn1.
Qed.

End Idempotence.

(** ** The replaced navigation operations *)

Section Navigation.
Import Plugin Runtime Geometry.

(** C7. In the second file, after an attachment that found its scaffold
    and the viewer objects, each of the five replaced operations, when
    the reader calls it, makes the one primitive call that belongs to it
    (history navigateBack, previousPage, nextPage, dispatch of firstpage,
    dispatch of lastpage) and then runs centerCurrentPage on the located
    container: the calls it adds are the primitive, once, followed by
    those of centerCurrentPage. *)
Theorem replaced_operations (w : World) (r : nat) (reader : ReaderInstance)
    (f v pv eb : nat) (op : NavOp)
    (Hs : scaffold w r = Some (reader, f, v))
    (Ho : viewerObjects w reader = Some (pv, eb)) :
  let w1 := Override.addListeners r w in
  let lv := lastView reader in
  let prim := primitiveOf lv pv eb op in
  slot op <$> views w1 !! lv = Some (centering prim v)
  /\ navigate lv op w1 = centerCurrentPage v (call (c_primitive prim) w1)
  /\ calls (navigate lv op w1)
     = calls w1 ++ c_primitive prim :: c_querySelectorAll sel_pages ::
         match getCurrentPage (layout (call (c_primitive prim) w1) v) with
         | Some page =>
             [c_scrollTo v (getScrollTarget (box (layout (call (c_primitive prim) w1) v)) page)]
         | None => []
         end.
Proof.
  cbv zeta.
  destruct (Override_run _ _ _ _ _ _ _ Hs Ho) as (view & _ & Hv & _).
  assert (slot op <$> views (Override.addListeners r w) !! lastView reader
          = Some (centering (primitiveOf (lastView reader) pv eb op) v)) as Hslot.
  { rewrite Hv, lookup_insert_eq. by destruct op. }
  assert (navigate (lastView reader) op (Override.addListeners r w)
          = centerCurrentPage v
              (call (c_primitive (primitiveOf (lastView reader) pv eb op))
                 (Override.addListeners r w))) as Hnav.
  { unfold navigate. by rewrite Hslot. }
  split; [done |]. split; [done |].
  rewrite Hnav, centerCurrentPage_calls. simpl. by rewrite <- app_assoc.
Qed.

End Navigation.

(** ** The render notification *)

Section Render.
Import Plugin Runtime.

Lemma prefix_await p k now w :
  (forall v w', debugLog w' `prefix_of` debugLog (now v w')) ->
  debugLog w `prefix_of` debugLog (await p k now w).
Proof. intros H. unfold await. destruct (promiseState w p); [done | apply H | done]. Qed.

Lemma prefix_Listener_attach a b c d v w :
  debugLog w `prefix_of` debugLog (Listener.attach a b c d v w).
Proof.
  destruct v as [v |]; [| done].
  destruct (Listener_attach_frame a b c d v w) as (_ & _ & _ & -> & _).
  by apply prefix_app_r.
Qed.

Lemma prefix_Listener_lookup r w : debugLog w `prefix_of` debugLog (Listener.lookup r w).
Proof.
  unfold Listener.lookup. destruct (readers w !! r) as [reader |]; [| done].
  rewrite findFrame_eq.
  assert (debugLog match iframeWindow reader with
                   | Some _ => note (c_querySelector sel_viewerFrame) w
                   | None => w
                   end = debugLog w) as Hsame by (by destruct (iframeWindow reader)).
  destruct (frameOf w reader) as [f |], (iframeWindow reader) as [doc |];
    try (simpl; by apply prefix_app_r).
  match goal with |- context [getViewerContainer f ?W] =>
    assert (debugLog (getViewerContainer f W).2 = debugLog w) as Hg;
    [| destruct (getViewerContainer f W) as [p w2] ] end.
  { unfold getViewerContainer. rewrite queryViewerContainer_eq.
    destruct (containerOf _ f); [by destruct (_ ≫= contentDocument) |].
    rewrite addEventListener_shape. by destruct (_ ≫= contentDocument). }
  simpl in Hg. rewrite <- Hg. apply prefix_await. intros. apply prefix_Listener_attach.
Qed.

Lemma prefix_Listener_addListeners r w :
  debugLog (entered w) `prefix_of` debugLog (Listener.addListeners r w).
Proof.
  unfold Listener.addListeners. fold (entered w).
  destruct (readers (entered w) !! r) as [reader |]; [| done].
  apply prefix_await. intros _ w'. unfold Listener.init.
  destruct (readers w' !! r) as [reader' |]; [| done].
  apply prefix_await. intros. apply prefix_Listener_lookup.
Qed.

(** C5, as the code has it.  In the second file a render notification
    for a Surface whose kind is not pdf does nothing at all: no state is
    created and addListeners is not started.  The first file has no kind
    test: its onRenderToolbar starts addListeners for every Surface, which
    begins by logging its entry line. *)
Theorem onRenderToolbar_kind (w : World) (r : nat) (reader : ReaderInstance)
    (Hr : readers w !! r = Some reader)
    (Hk : type reader <> pdf) :
  Override.onRenderToolbar r w = w
  /\ Listener.onRenderToolbar r w = Listener.addListeners r w
  /\ exists rest,
       debugLog (Listener.onRenderToolbar r w)
       = debugLog w ++ line w (text "adding page listeners") :: rest.
Proof.
  split; [| split; [done |]].
  - unfold Override.onRenderToolbar, Override.isPDFReader. rewrite Hr.
    by rewrite bool_decide_eq_false_2.
  - destruct (prefix_Listener_addListeners r w) as [rest Hrest].
    exists rest. unfold Listener.onRenderToolbar. rewrite Hrest. simpl.
    by rewrite <- app_assoc.
Qed.

End Render.

(** ** Lookups that fail *)

Section Failures.
Import Plugin Runtime.

Lemma settle_one W p k v :
  promises W !! p = Some pending ->
  filter (fun t : nat * Cont => t.1 = p) (tasks W) = [(p, k)] ->
  settle p (ok v) W
  = resume k v (set_promises (<[p := fulfilled v]> (promises W))
                  (set_tasks (filter (fun t : nat * Cont => t.1 <> p) (tasks W)) W)).
Proof. intros Hp Hw. unfold settle. by rewrite Hp, Hw. Qed.

Lemma load_resumes W f p k es :
  filter (fun l : nat * string * Callback => l.1 = (f, "load"%string)) (listeners W)
    = [(f, "load"%string, loadResolve f p)] ->
  promises W !! p = Some pending ->
  filter (fun t : nat * Cont => t.1 = p) (tasks W) = [(p, k)] ->
  exists W',
    dispatchEvent f "load" (atLoad es W) = resume k (containerOf es f) W'
    /\ debugLog W' = debugLog W /\ listeners W' = listeners W /\ views W' = views W
    /\ readers W' = readers W /\ rejections W' = rejections W
    /\ tasks W' = filter (fun t : nat * Cont => t.1 <> p) (tasks W)
    /\ promises W' = <[p := fulfilled (containerOf es f)]> (promises W).
Proof.
  intros Hl Hp Ht.
  rewrite (dispatchEvent_single _ f "load" (loadResolve f p)) by done.
  rewrite invoke_loadResolve, queryViewerContainer_eq.
  change (elements (atLoad es W)) with es.
  rewrite settle_one with (k := k);
    [| by destruct (es !! f ≫= contentDocument) | by destruct (es !! f ≫= contentDocument)].
  eexists. split; [done |].
  by destruct (es !! f ≫= contentDocument).
Qed.

Lemma Listener_suspends w r reader f :
  surface w r = Some (reader, Some f) ->
  containerOf (elements w) f = None ->
  listenersOn f "load" w = [] ->
  exists doc,
    iframeWindow reader = Some doc
    /\ suspendedOn w (Listener.addListeners r w) f
         (k_listen (q_previous doc) (q_next doc) (q_navigateBack doc) (q_pageNumber doc)).
Proof.
  intros Hs Hc Hl.
  rewrite (Listener_addListeners_ready _ _ _ _ Hs).
  apply surface_inv in Hs as (Hr & _ & _ & Hf). symmetry in Hf.
  destruct (frameOf_document _ _ _ Hf) as [doc Hdoc].
  exists doc. split; [done |]. unfold Listener.lookup.
  change (readers (log _ w)) with (readers w). rewrite Hr, findFrame_eq.
  rewrite (frameOf_elements w (log _ w) reader eq_refl), Hf, Hdoc.
  rewrite getViewerContainer_absent by done.
  pose proof (listenersOn_nil_notin f "load" (loadResolve f (length (promises w))) w Hl)
    as Hnotin.
  unfold addEventListener. simpl.
  rewrite bool_decide_eq_false_2 by (by destruct (elements w !! f ≫= contentDocument)).
  unfold await, promiseState. simpl.
  unfold suspendedOn.
  destruct (elements w !! f ≫= contentDocument); simpl; by rewrite lookup_last.
Qed.

Lemma Override_suspends w r reader f :
  surface w r = Some (reader, Some f) ->
  containerOf (elements w) f = None ->
  listenersOn f "load" w = [] ->
  suspendedOn w (Override.addListeners r w) f (k_replace r).
Proof.
  intros Hs Hc Hl.
  rewrite (Override_addListeners_ready _ _ _ _ Hs).
  apply surface_inv in Hs as (Hr & _ & _ & Hf). symmetry in Hf.
  unfold Override.lookup.
  change (readers (log _ w)) with (readers w). rewrite Hr, findFrame_eq.
  rewrite (frameOf_elements w (log _ w) reader eq_refl), Hf.
  rewrite getViewerContainer_absent by (by destruct (iframeWindow reader)).
  pose proof (listenersOn_nil_notin f "load" (loadResolve f (length (promises w))) w Hl)
    as Hnotin.
  unfold addEventListener.
  rewrite bool_decide_eq_false_2
    by (by destruct (iframeWindow reader), (elements _ !! f ≫= contentDocument)).
  unfold await, promiseState, suspendedOn.
  destruct (iframeWindow reader); simpl;
    destruct (elements w !! f ≫= contentDocument); simpl; by rewrite lookup_last.
Qed.

Lemma navHooks_load ls f p (vs : gmap nat View) w :
  listeners w = ls ++ [(f, "load"%string, loadResolve f p)] -> views w = vs ->
  navHooks w = (filter (fun l : nat * string * Callback => isHandler l.2 = true) ls, vs).
Proof.
  intros Hl Hv. unfold navHooks. rewrite Hl, Hv, filter_app. simpl.
  by rewrite app_nil_r.
Qed.

(** The load event arrives and the frame still has no container. *)
Lemma suspended_then_absent w w1 f k es :
  suspendedOn w w1 f k ->
  listenersOn f "load" w = [] ->
  Forall (fun t => (t.1 < length (promises w))%nat) (tasks w) ->
  containerOf es f = None ->
  exists W',
    dispatchEvent f "load" (atLoad es w1) = resume k None W'
    /\ readers W' = readers w /\ views W' = views w
    /\ debugLog W' = debugLog w1
    /\ haltedWith w W' [line w (text "adding page listeners")].
Proof.
  intros (Hlog & Hls & Hp & Ht & Hrej & Hv & Hr & Hn) Hl Hwf Hc.
  apply fmap_nil_inv in Hl.
  destruct (no_task_on_fresh _ _ Hwf) as [Hnone Hall].
  destruct (load_resumes w1 f (length (promises w)) k es) as (W' & -> & Wlog & Wls & Wv & Wr & Wrej & Wt & Wp).
  - by rewrite Hls, filter_snoc_key, Hl.
  - rewrite Hp. apply lookup_last.
  - rewrite Ht, filter_app, Hnone, filter_cons. simpl. by case_decide.
  - rewrite Hc. exists W'. split; [done |].
    split; [congruence |]. split; [congruence |]. split; [done |].
    unfold haltedWith. split; [congruence |]. split; [| split; [congruence |]].
    + rewrite (navHooks_load (listeners w) f (length (promises w)) (views w));
        [done | congruence | congruence].
    + rewrite Wt, Ht, filter_app, Hall, filter_cons. simpl.
      case_decide as E; [by destruct E | by rewrite app_nil_r].
Qed.

End Failures.

Section FailureCases.
Import Plugin Runtime.

Lemma case_ascii (c : ascii) :
  lowerCase_ascii (toUpperCase_ascii c) = lowerCase_ascii c
  /\ toUpperCase_ascii (lowerCase_ascii c) = toUpperCase_ascii c.
Proof. destruct c as [[] [] [] [] [] [] [] []]; vm_compute; by split. Qed.

Lemma case_string (s : string) :
  lowerCase (toUpperCase s) = lowerCase s /\ toUpperCase (lowerCase s) = toUpperCase s.
Proof.
  induction s as [| c s [IH1 IH2]]; [done |]. simpl.
  destruct (case_ascii c) as [-> ->]. by rewrite IH1, IH2.
Qed.

(** The test of the code agrees with the tag name read in lower case. *)
Lemma isIframe_iframeTag e : isIframe e = true <-> iframeTag e.
Proof.
  unfold isIframe, iframeTag. rewrite bool_decide_eq_true. split; intros H.
  - rewrite <- (proj1 (case_string (tagName e))), H. reflexivity.
  - rewrite <- (proj2 (case_string (tagName e))), H. reflexivity.
Qed.

Lemma frameFound_frameOf w reader f : frameFound w reader f -> frameOf w reader = Some f.
Proof.
  intros (doc & e & Hdoc & Hq & He & Htag%isIframe_iframeTag).
  unfold frameOf, findFrame. rewrite Hdoc, Hq. simpl. by rewrite He, Htag.
Qed.

Lemma frameLookupFails_frameOf w reader : frameLookupFails w reader -> frameOf w reader = None.
Proof.
  unfold frameOf, findFrame.
  intros [Hdoc | [(doc & Hdoc & Hq) | (doc & f & e & Hdoc & Hq & He & Htag)]].
  - by rewrite Hdoc.
  - by rewrite Hdoc, Hq.
  - rewrite Hdoc, Hq. simpl. rewrite He.
    destruct (isIframe e) eqn:E; [| done]. by apply isIframe_iframeTag in E.
Qed.

Lemma surface_of_ready w r reader :
  readers w !! r = Some reader -> ready w reader = true ->
  surface w r = Some (reader, frameOf w reader).
Proof. intros Hr Hready. unfold surface. rewrite Hr. simpl. by rewrite Hready. Qed.

Lemma scaffold_of_surface w r reader f v :
  surface w r = Some (reader, Some f) -> containerOf (elements w) f = Some v ->
  scaffold w r = Some (reader, f, v).
Proof. intros Hs Hc. unfold scaffold. rewrite Hs. simpl. by rewrite Hc. Qed.

Lemma halted_no_frame w reader W :
  W = log (notReady (tabID reader)) (findFrame reader (entered w)).2 ->
  haltedWith w W [line w (text "adding page listeners"); line w (notReady (tabID reader))].
Proof.
  intros ->. rewrite findFrame_eq. unfold haltedWith, navHooks, entered.
  destruct (iframeWindow reader); simpl; by rewrite <- app_assoc.
Qed.

Lemma viewReadable_read w reader :
  viewReadable w reader ->
  exists view,
    views w !! lastView reader = Some view
    /\ forall field, Override.readApplication field view = Some (appWindow view ≫= field).
Proof.
  intros (view & Hv & Hwin). exists view. split; [done |]. intros field.
  unfold Override.readApplication, appWindow.
  destruct Hwin as [-> | (win & app & -> & Happ)]; simpl; [done |]. by rewrite Happ.
Qed.

Lemma Override_attach_None r reader w :
  readers w !! r = Some reader -> viewReadable w reader ->
  Override.attach r None w = w.
Proof.
  intros Hr (view & Hv & Hread)%viewReadable_read.
  unfold Override.attach. by rewrite Hr, Hv, !Hread.
Qed.

Lemma Override_attach_no_objects r reader v w :
  readers w !! r = Some reader -> viewReadable w reader ->
  viewerObjects w reader = None ->
  Override.attach r (Some v) w = w.
Proof.
  intros Hr (view & Hv & Hread)%viewReadable_read.
  unfold Override.attach, viewerObjects. rewrite Hr, Hv, !Hread. simpl.
  by destruct (appWindow view ≫= pdfViewer), (appWindow view ≫= eventBus).
Qed.

(** Where the view cannot be read (the reader has no view, or the
    view's window lacks PDFViewerApplication) reading pdfViewer throws:
    the run of the second file rejects, whatever the container. *)
Lemma Override_attach_unreadable r reader viewer w :
  readers w !! r = Some reader -> ~ viewReadable w reader ->
  Override.attach r viewer w = reject w.
Proof.
  intros Hr Hno. unfold Override.attach. rewrite Hr.
  destruct (views w !! lastView reader) as [view |] eqn:Hv; [| done].
  unfold Override.readApplication.
  destruct (frameWindow view) as [win |] eqn:Hwin.
  - destruct (application win) as [app |] eqn:Happ; [| done].
    destruct Hno. exists view. split; [done |]. right. by exists win, app.
  - destruct Hno. exists view. split; [done |]. by left.
Qed.

(** C6, as the code has it.  With the Surface ready:
    (a) a missing content document, a missing frame element or a frame
    element that is not an iframe makes both files log the diagnostic
    couldn't attach styles; tab ... not ready and halt, with no hook, no
    rejection and nothing left parked;
    (b) a viewport container that is missing at once and still missing
    when the load event fires halts the attempt in the same way but
    silently: after the entry line nothing is logged; in the second file
    this holds when the pdfViewer and eventBus of the view can be read;
    (c) in the second file a missing pdfViewer or eventBus, read off a
    view that can be read, halts the attempt silently too;
    (d) in the first file a missing navigation control does not halt the
    attempt: every control that is present gets the handler and the run
    ends with added page listeners. *)
Theorem lookup_failures (w : World) (r : nat) (reader : ReaderInstance)
    (Hr : readers w !! r = Some reader)
    (Hready : ready w reader = true) :
  (frameLookupFails w reader ->
     let said := [line w (text "adding page listeners"); line w (notReady (tabID reader))] in
     haltedWith w (Listener.addListeners r w) said
     /\ haltedWith w (Override.addListeners r w) said)
  /\ (forall f es,
        frameFound w reader f ->
        containerOf (elements w) f = None -> containerOf es f = None ->
        listenersOn f "load" w = [] ->
        Forall (fun t => (t.1 < length (promises w))%nat) (tasks w) ->
        let l1 := Listener.addListeners r w in
        let l2 := dispatchEvent f "load" (atLoad es l1) in
        let o1 := Override.addListeners r w in
        let o2 := dispatchEvent f "load" (atLoad es o1) in
        (haltedWith w l2 [line w (text "adding page listeners")]
         /\ debugLog l2 = debugLog l1)
        /\ (viewReadable w reader ->
            haltedWith w o2 [line w (text "adding page listeners")]
            /\ debugLog o2 = debugLog o1))
  /\ (forall f v,
        frameFound w reader f -> containerOf (elements w) f = Some v ->
        viewReadable w reader -> viewerObjects w reader = None ->
        haltedWith w (Override.addListeners r w) [line w (text "adding page listeners")])
  /\ (forall f v doc,
        frameFound w reader f -> containerOf (elements w) f = Some v ->
        iframeWindow reader = Some doc ->
        let l1 := Listener.addListeners r w in
        debugLog l1 = debugLog w ++ [line w (text "adding page listeners");
                                     line w (text "added page listeners")]
        /\ rejections l1 = rejections w /\ tasks l1 = tasks w
        /\ forall t ty, (Some t, ty) ∈ controls doc ->
             listenersOn t ty l1 = listenersOn t ty w ++ [handler (newClosure w) v]).
Proof.
  pose proof (surface_of_ready _ _ _ Hr Hready) as Hs.
  split; [| split; [| split]].
  - intros Hfail%frameLookupFails_frameOf. rewrite Hfail in Hs.
    cbv zeta. split; apply halted_no_frame.
    + by apply Listener_no_frame.
    + by apply Override_no_frame.
  - intros f es Hf%frameFound_frameOf Hc Hes Hl Hwf. rewrite Hf in Hs. cbv zeta. split.
    + destruct (Listener_suspends _ _ _ _ Hs Hc Hl) as (doc & Hdoc & Hsusp).
      destruct (suspended_then_absent _ _ _ _ es Hsusp Hl Hwf Hes)
        as (W' & -> & _ & _ & Hlog & Hhalt).
      by simpl.
    + intros (view & Hv & Hwin).
      pose proof (Override_suspends _ _ _ _ Hs Hc Hl) as Hsusp.
      destruct (suspended_then_absent _ _ _ _ es Hsusp Hl Hwf Hes)
        as (W' & -> & HWr & HWv & Hlog & Hhalt).
      change (resume (k_replace ?r) ?x ?W) with (Override.attach r x W).
      rewrite (Override_attach_None r reader); [done | congruence |].
      exists view. by rewrite HWv.
  - intros f v Hf%frameFound_frameOf Hc (view & Hview & Hwin) Hno. rewrite Hf in Hs.
    destruct (Override_found _ _ _ _ _ (scaffold_of_surface _ _ _ _ _ Hs Hc))
      as (w' & Hl & ->).
    destruct Hl as (_ & Hn & Hlog & _ & Hp & Ht & Hrej & HWr & He & _ & Hv & Hls & _).
    rewrite (Override_attach_no_objects r reader);
      [| congruence | exists view; by rewrite Hv | unfold viewerObjects in *; by rewrite Hv].
    unfold haltedWith, navHooks. by rewrite Hlog, Hls, Hv, Hrej, Ht.
  - intros f v doc Hf%frameFound_frameOf Hc Hdoc. rewrite Hf in Hs. cbv zeta.
    destruct (Listener_run _ _ _ _ _ (scaffold_of_surface _ _ _ _ _ Hs Hc))
      as (_ & Hlog & _ & _ & Hrej & Ht & Hon).
    repeat split; try done. intros t ty Hin. by apply (Hon doc).
Qed.

End FailureCases.

(** ** The theorems at concrete surfaces *)

Section Witnesses.
Import Plugin Runtime Geometry Examples.

Lemma getCurrentPage_first_within_witness :
  (exists p, p ∈ pages (viewport (1200 # 1)) /\ withinTolerance (box (viewport (1200 # 1))) p)
  /\ exists i p,
       pages (viewport (1200 # 1)) !! i = Some p
       /\ getCurrentPage (viewport (1200 # 1)) = Some p
       /\ withinTolerance (box (viewport (1200 # 1))) p
       /\ forall j q, (j < i)%nat -> pages (viewport (1200 # 1)) !! j = Some q ->
            ~ withinTolerance (box (viewport (1200 # 1))) q.
Proof.
  assert (exists p, p ∈ pages (viewport (1200 # 1))
                    /\ withinTolerance (box (viewport (1200 # 1))) p) as H.
  { exists (page 1203 0 800 600). split.
    - simpl. apply list_elem_of_further, list_elem_of_further, list_elem_of_here.
    - unfold withinTolerance. vm_compute. reflexivity. }
  split; [exact H |].
  exact (getCurrentPage_first_within (viewport (1200 # 1)) H).
Defined.

Lemma centerCurrentPage_without_page_witness :
  (forall p, p ∈ pages (layout betweenPagesWorld 30) ->
     ~ withinTolerance (box (layout betweenPagesWorld 30)) p)
  /\ getCurrentPage (layout betweenPagesWorld 30) = None
  /\ calls (centerCurrentPage 30 betweenPagesWorld) = [c_querySelectorAll sel_pages]
  /\ viewers (centerCurrentPage 30 betweenPagesWorld) = viewers betweenPagesWorld.
Proof.
  assert (forall p, p ∈ pages (layout betweenPagesWorld 30) ->
            ~ withinTolerance (box (layout betweenPagesWorld 30)) p) as H.
  { intros p Hp. apply near_false.
    change (pages (layout betweenPagesWorld 30))
      with [page 0 0 800 600; page 1200 200 400 600; page 1203 0 800 600] in Hp.
    rewrite !elem_of_cons in Hp.
    destruct Hp as [-> | [-> | [-> | Hp]]]; [reflexivity | reflexivity | reflexivity |].
    by apply elem_of_nil in Hp. }
  split; [exact H |].
  destruct (centerCurrentPage_without_page betweenPagesWorld 30 H) as (H1 & _ & H3 & H4 & _).
  split; [exact H1 |]. split; [exact H3 | exact H4].
Defined.

Lemma isActive_always_true_witness :
  this (fresh options "Center PDF") = constructor options
  /\ isActive (this (run [s_startup; s_onRenderToolbar listener 1; s_shutdown]
                       (fresh options "Center PDF"))) = true.
Proof.
  split; [reflexivity |].
  exact (proj1 (isActive_always_true options (fresh options "Center PDF")
                  [s_startup; s_onRenderToolbar listener 1; s_shutdown] eq_refl)).
Defined.

Lemma getViewerContainer_settles_witness :
  let late : gmap nat Element := {[ 10%nat := frame (Some 30%nat) ]} in
  let w1 := (getViewerContainer 10 loadingWorld).2 in
  (listenersOn 10 "load" loadingWorld = []
   /\ Forall (fun t => (t.1 < length (promises loadingWorld))%nat) (tasks loadingWorld))
  /\ promiseState w1 2 = pending
  /\ promiseState (dispatchEvent 10 "load" (atLoad late w1)) 2 = fulfilled (Some 30%nat)
  /\ promiseState (dispatchEvent 10 "load" (atLoad emptyFrame w1)) 2 = fulfilled None.
Proof.
  intros late w1.
  assert (listenersOn 10 "load" loadingWorld = []) as Hl by reflexivity.
  assert (Forall (fun t => (t.1 < length (promises loadingWorld))%nat) (tasks loadingWorld))
    as Ht by apply Forall_nil_2.
  split; [by split |].
  pose proof (getViewerContainer_settles loadingWorld 10 late Hl Ht) as (H1 & _ & H2 & _).
  pose proof (getViewerContainer_settles loadingWorld 10 emptyFrame Hl Ht) as (_ & _ & H3 & _).
  split; [exact H1 |]. split; [exact H2 | exact H3].
Defined.

Lemma replaced_operations_witness :
  (scaffold readyWorld 1 = Some (tab pdf, 10%nat, 30%nat)
   /\ viewerObjects readyWorld (tab pdf) = Some (40%nat, 41%nat))
  /\ calls (navigate 20 navigateToNextPage (Override.addListeners 1 readyWorld))
     = calls (Override.addListeners 1 readyWorld)
       ++ [c_primitive (nextPage 40); c_querySelectorAll sel_pages;
           c_scrollTo 30 {| top := 2400 # 2; left := 0 # 2 |}].
Proof.
  assert (scaffold readyWorld 1 = Some (tab pdf, 10%nat, 30%nat)) as Hs by reflexivity.
  assert (viewerObjects readyWorld (tab pdf) = Some (40%nat, 41%nat)) as Ho by reflexivity.
  split; [by split |].
  exact (proj2 (proj2 (replaced_operations readyWorld 1 (tab pdf) 10 30 40 41
                         navigateToNextPage Hs Ho))).
Defined.

End Witnesses.

(** ** Where the code departs from the specification *)

Section Departures.
Import Plugin Runtime Examples.

(** In the first file a second run of addListeners for the same Surface
    installs a second handler on every control: the second run is not a
    no-op, and one click then schedules the centring twice. *)
Lemma attachment_twice_installs_twice :
  let w1 := Listener.addListeners 1 readyWorld in
  let w2 := Listener.addListeners 1 w1 in
  listenersOn 11 "click" w1 = [handler 1 30]
  /\ listenersOn 11 "click" w2 = [handler 1 30; handler 2 30]
  /\ navHooks w2 <> navHooks w1
  /\ timers (dispatchEvent 11 "click" w2) = [centerLater 30; centerLater 30].
Proof.
  cbv zeta. split; [reflexivity |]. split; [reflexivity |]. split; [| reflexivity].
  intros H. apply (f_equal (fun h => length h.1)) in H. vm_compute in H. discriminate.
Qed.

Lemma attachment_repeated_witness :
  scaffold readyWorld 1 = Some (tab pdf, 10%nat, 30%nat)
  /\ listenersOn 12 "click" (Listener.addListeners 1 (Listener.addListeners 1 readyWorld))
     = listenersOn 12 "click" readyWorld
       ++ [handler (newClosure readyWorld) 30;
           handler (newClosure (Listener.addListeners 1 readyWorld)) 30]
  /\ views (Override.addListeners 1 (Override.addListeners 1 readyWorld))
     = views (Override.addListeners 1 readyWorld).
Proof.
  assert (scaffold readyWorld 1 = Some (tab pdf, 10%nat, 30%nat)) as Hs by reflexivity.
  split; [exact Hs |].
  destruct (attachment_repeated readyWorld 1 (tab pdf) 10 30 Hs) as [[_ Hl] Ho].
  split.
  - refine (proj2 (Hl toolbar 12%nat "click"%string eq_refl _)).
    apply list_elem_of_further, list_elem_of_here.
  - exact (proj1 (Ho 40%nat 41%nat eq_refl)).
Defined.

(** In the first file a render notification for an epub Surface starts
    the attachment sequence: the entry line is logged and a continuation
    is parked on the Surface's readiness. *)
Lemma render_epub_starts_attachment :
  readers epubWorld !! 1%nat = Some (tab epub)
  /\ type (tab epub) <> pdf
  /\ debugLog (Listener.onRenderToolbar 1 epubWorld)
     = [line epubWorld (text "adding page listeners")]
  /\ tasks (Listener.onRenderToolbar 1 epubWorld) = [(0%nat, k_init listener 1)]
  /\ Listener.onRenderToolbar 1 epubWorld <> epubWorld.
Proof.
  split; [reflexivity |]. split; [done |]. split; [reflexivity |]. split; [reflexivity |].
  intros H. apply (f_equal tasks) in H. vm_compute in H. discriminate.
Qed.

Lemma onRenderToolbar_kind_witness :
  (readers epubWorld !! 1%nat = Some (tab epub) /\ type (tab epub) <> pdf)
  /\ Override.onRenderToolbar 1 epubWorld = epubWorld
  /\ Listener.onRenderToolbar 1 epubWorld = Listener.addListeners 1 epubWorld.
Proof.
  assert (readers epubWorld !! 1%nat = Some (tab epub)) as Hr by reflexivity.
  assert (type (tab epub) <> pdf) as Hk by done.
  split; [by split |].
  destruct (onRenderToolbar_kind epubWorld 1 (tab epub) Hr Hk) as (H1 & H2 & _).
  split; [exact H1 | exact H2].
Defined.

(** The frame has no container, and has none when the load event fires:
    both files stop without a word after the entry line.  And in the
    first file a toolbar without button#previous does not stop the
    attachment: the other three controls get their handler. *)
Lemma silent_and_partial_attachment :
  (let w1 := Listener.addListeners 1 loadingWorld in
   let w2 := dispatchEvent 10 "load" (atLoad emptyFrame w1) in
   containerOf emptyFrame 10 = None
   /\ debugLog w2 = [line loadingWorld (text "adding page listeners")]
   /\ loggedSince w1 w2 = [])
  /\ (let w1 := Override.addListeners 1 loadingWorld in
      let w2 := dispatchEvent 10 "load" (atLoad emptyFrame w1) in
      debugLog w2 = [line loadingWorld (text "adding page listeners")]
      /\ loggedSince w1 w2 = [])
  /\ (let w1 := Listener.addListeners 1 noPreviousWorld in
      (readers noPreviousWorld !! 1%nat ≫= iframeWindow) ≫= q_previous = None
      /\ listeners w1 = [(12%nat, "click"%string, handler 1 30);
                         (13%nat, "click"%string, handler 1 30);
                         (14%nat, "change"%string, handler 1 30)]
      /\ debugLog w1 = [line noPreviousWorld (text "adding page listeners");
                        line noPreviousWorld (text "added page listeners")]).
Proof. cbv zeta. repeat split; reflexivity. Qed.

Lemma lookup_failures_witness :
  (frameLookupFails noDocumentWorld (tabWith None)
   /\ frameLookupFails noFrameWorld (tabWith (Some toolbarNoFrame))
   /\ frameLookupFails notIframeWorld (tab pdf)
   /\ frameFound loadingWorld (tab pdf) 10
   /\ viewReadable loadingWorld (tab pdf)
   /\ viewReadable noPdfViewerWorld (tab pdf)
   /\ viewerObjects noPdfViewerWorld (tab pdf) = None)
  /\ haltedWith noDocumentWorld (Listener.addListeners 1 noDocumentWorld)
       [line noDocumentWorld (text "adding page listeners");
        line noDocumentWorld (notReady "tab-1")]
  /\ haltedWith noFrameWorld (Override.addListeners 1 noFrameWorld)
       [line noFrameWorld (text "adding page listeners");
        line noFrameWorld (notReady "tab-1")]
  /\ haltedWith notIframeWorld (Listener.addListeners 1 notIframeWorld)
       [line notIframeWorld (text "adding page listeners");
        line notIframeWorld (notReady "tab-1")]
  /\ haltedWith loadingWorld
       (dispatchEvent 10 "load" (atLoad emptyFrame (Override.addListeners 1 loadingWorld)))
       [line loadingWorld (text "adding page listeners")]
  /\ haltedWith noPdfViewerWorld (Override.addListeners 1 noPdfViewerWorld)
       [line noPdfViewerWorld (text "adding page listeners")]
  /\ listenersOn 12 "click" (Listener.addListeners 1 noPreviousWorld)
     = listenersOn 12 "click" noPreviousWorld ++ [handler (newClosure noPreviousWorld) 30].
Proof.
  assert (frameLookupFails noDocumentWorld (tabWith None)) as F1 by (by left).
  assert (frameLookupFails noFrameWorld (tabWith (Some toolbarNoFrame))) as F2
    by (right; left; by exists toolbarNoFrame).
  assert (frameLookupFails notIframeWorld (tab pdf)) as F3.
  { right; right. exists toolbar, 10%nat, svgFrame. repeat split; try reflexivity.
    unfold iframeTag. vm_compute. discriminate. }
  assert (forall container, iframeTag (frame container)) as Htag by reflexivity.
  assert (frameFound loadingWorld (tab pdf) 10) as F4
    by (exists toolbar, (frame None); repeat split; reflexivity).
  assert (frameFound noPdfViewerWorld (tab pdf) 10) as F5
    by (exists toolbar, (frame (Some 30%nat)); repeat split; reflexivity).
  assert (frameFound noPreviousWorld (tabWith (Some toolbarNoPrevious)) 10) as F6
    by (exists toolbarNoPrevious, (frame (Some 30%nat)); repeat split; reflexivity).
  assert (viewReadable loadingWorld (tab pdf)) as V4.
  { exists pdfView. split; [reflexivity |]. right. eexists _, _. split; reflexivity. }
  assert (viewReadable noPdfViewerWorld (tab pdf)) as V5.
  { eexists. split; [reflexivity |]. right. eexists _, _. split; reflexivity. }
  split; [by repeat split |].
  split; [| split; [| split; [| split; [| split]]]].
  - exact (proj1 (proj1 (lookup_failures noDocumentWorld 1 _ eq_refl eq_refl) F1)).
  - exact (proj2 (proj1 (lookup_failures noFrameWorld 1 _ eq_refl eq_refl) F2)).
  - exact (proj1 (proj1 (lookup_failures notIframeWorld 1 _ eq_refl eq_refl) F3)).
  - destruct (proj1 (proj2 (lookup_failures loadingWorld 1 _ eq_refl eq_refl)) 10%nat emptyFrame
                F4 eq_refl eq_refl eq_refl (Forall_nil_2 _)) as [_ Ho].
    exact (proj1 (Ho V4)).
  - exact (proj1 (proj2 (proj2 (lookup_failures noPdfViewerWorld 1 _ eq_refl eq_refl)))
             10%nat 30%nat F5 eq_refl V5 eq_refl).
  - refine (proj2 (proj2 (proj2 (proj2 (proj2 (proj2
              (lookup_failures noPreviousWorld 1 _ eq_refl eq_refl)))
              10%nat 30%nat toolbarNoPrevious F6 eq_refl eq_refl))) 12%nat "click"%string _).
    apply list_elem_of_further, list_elem_of_here.
Defined.

End Departures.

(** * Further properties of the code *)

(** ** What the scroll target means, and when the current page is unique *)

Section GeometryMore.
Import Geometry Examples.

(** X1. Scrolling to the target puts the centre of the page on the
    centre of the viewport, in both directions: target plus half the
    viewport size is the page offset plus half the page size. *)
Theorem getScrollTarget_aligns_centres (V P : HTMLElement) :
  (top (getScrollTarget V P) + inject_Z (clientHeight V) / 2
     == inject_Z (offsetTop P) + inject_Z (clientHeight P) / 2
   /\ left (getScrollTarget V P) + inject_Z (clientWidth V) / 2
     == inject_Z (offsetLeft P) + inject_Z (clientWidth P) / 2)%Q.
Proof.
  unfold getScrollTarget. simpl.
  unfold Z.sub. rewrite !inject_Z_plus, !inject_Z_opp. split; field.
Qed.

Lemma within_tops_close V p q :
  withinTolerance V p -> withinTolerance V q ->
  Z.abs (offsetTop p - offsetTop q) < 10.
Proof.
  unfold withinTolerance. intros Hp Hq.
  apply Qabs_Qlt_condition in Hp as [Hp1 Hp2].
  apply Qabs_Qlt_condition in Hq as [Hq1 Hq2].
  assert (inject_Z (offsetTop p - offsetTop q) < inject_Z 10
          /\ inject_Z (-10) < inject_Z (offsetTop p - offsetTop q))%Q as [H1 H2].
  { unfold Z.sub. rewrite inject_Z_plus, inject_Z_opp.
    change (inject_Z 10) with 10%Q. change (inject_Z (-10)) with (-10)%Q.
    unfold Qminus in *. split; lra. }
  rewrite <- Zlt_Qlt in H1, H2. lia.
Qed.

(** X2. When the tops of the pages lie at least 10 units apart, at most
    one page can be within the tolerance: a page of the list that is
    within it is the one getCurrentPage returns, wherever it stands in
    the list. *)
Theorem getCurrentPage_unique (viewer : ViewerNode) (i : nat) (p : HTMLElement)
    (Hi : pages viewer !! i = Some p)
    (Hp : withinTolerance (box viewer) p)
    (Hapart : forall j k a b, pages viewer !! j = Some a -> pages viewer !! k = Some b ->
                j <> k -> 10 <= Z.abs (offsetTop a - offsetTop b)) :
  getCurrentPage viewer = Some p.
Proof.
  destruct (firstNear_Some (box viewer) (pages viewer)) as (j & q & Hj & Hf & Hq & _).
  { exists p. split; [by eapply list_elem_of_lookup_2 | by apply near_true]. }
  unfold getCurrentPage. rewrite Hf. f_equal.
  destruct (decide (j = i)) as [-> | Hne]; [congruence |].
  apply near_true in Hq.
  pose proof (within_tops_close _ _ _ Hq Hp) as Hclose.
  pose proof (Hapart j i q p Hj Hi Hne). lia.
Qed.

End GeometryMore.

(** ** Centring when a page is found *)

Section CentringMore.
Import Plugin Runtime Geometry.

(** X3. When some page is within the tolerance, centerCurrentPage logs
    the target and makes exactly one scrollTo call on the viewer, to the
    scroll target of the first page within the tolerance; what the layout
    becomes is what the browser makes of that call. *)
Theorem centerCurrentPage_scrolls (w : World) (v : nat)
    (H : exists p, p ∈ pages (layout w v) /\ withinTolerance (box (layout w v)) p) :
  exists i page,
    pages (layout w v) !! i = Some page
    /\ withinTolerance (box (layout w v)) page
    /\ (forall j q, (j < i)%nat -> pages (layout w v) !! j = Some q ->
          ~ withinTolerance (box (layout w v)) q)
    /\ let target := getScrollTarget (box (layout w v)) page in
       calls (centerCurrentPage v w)
         = calls w ++ [c_querySelectorAll sel_pages; c_scrollTo v target]
       /\ debugLog (centerCurrentPage v w) = debugLog w ++ [line w (scrollingTo target)]
       /\ viewers (centerCurrentPage v w) = browser w (c_scrollTo v target) (viewers w).
Proof.
  destruct H as (p & Hin & Hp%near_true).
  destruct (firstNear_Some (box (layout w v)) (pages (layout w v)))
    as (i & page & Hi & Hg & Hq & Hb); [by exists p |].
  change (firstNear _ _) with (getCurrentPage (layout w v)) in Hg.
  exists i, page. split; [done |]. split; [by apply near_true |].
  split; [intros j q Hj Hq'; apply near_false; by apply (Hb j) |].
  repeat split.
  - rewrite centerCurrentPage_calls. by rewrite Hg.
  - unfold centerCurrentPage. by rewrite Hg.
  - unfold centerCurrentPage. by rewrite Hg.
Qed.

End CentringMore.

(** ** A click on a control of the first file *)

Section Click.
Import Plugin Runtime.

Lemma dispatchEvent_listenersOn t ty w :
  dispatchEvent t ty w = fold_left (fun w cb => invoke cb w) (listenersOn t ty w) w.
Proof.
  unfold dispatchEvent, listenersOn.
  generalize (filter (fun l : nat * string * Callback => l.1 = (t, ty)) (listeners w)).
  intros ls. revert w. induction ls as [| l ls IH]; intros w; [done |]. simpl. apply IH.
Qed.

Lemma Listener_run_rest w r reader f v :
  scaffold w r = Some (reader, f, v) ->
  let w1 := Listener.addListeners r w in
  timers w1 = timers w /\ viewers w1 = viewers w /\ browser w1 = browser w.
Proof.
  intros Hs. cbv zeta.
  destruct (Listener_found _ _ _ _ _ Hs) as (doc & w' & Hdoc & Hl & ->).
  destruct Hl as (_ & _ & _ & _ & _ & _ & _ & _ & _ & Hv & _ & _ & Ht & Hb).
  rewrite Listener_attach_shape. simpl. by rewrite Ht, Hv, Hb.
Qed.

(** X4. After an attachment of the first file, a click (or change) on a
    control that is present does nothing at once but queue the centring:
    no log line, no foreign call, no scroll; one callback is added to the
    timer queue, and when that timer fires it runs centerCurrentPage on
    the container found at attachment. *)
Theorem click_defers_centring (w : World) (r : nat) (reader : ReaderInstance)
    (f v : nat) (doc : Document) (t : nat) (ty : string)
    (Hs : scaffold w r = Some (reader, f, v))
    (Hdoc : iframeWindow reader = Some doc)
    (Hin : (Some t, ty) ∈ controls doc)
    (Hfree : listenersOn t ty w = []) :
  let w1 := Listener.addListeners r w in
  let w2 := dispatchEvent t ty w1 in
  timers w2 = timers w ++ [centerLater v]
  /\ calls w2 = calls w1 /\ debugLog w2 = debugLog w1 /\ viewers w2 = viewers w
  /\ (timers w = [] -> runTimer w2 = centerCurrentPage v (set_timers [] w2)).
Proof.
  cbv zeta.
  destruct (Listener_run _ _ _ _ _ Hs) as (_ & _ & _ & _ & _ & _ & Hon).
  destruct (Listener_run_rest _ _ _ _ _ Hs) as (Ht & Hv & _).
  rewrite dispatchEvent_listenersOn, (Hon doc t ty Hdoc Hin), Hfree.
  remember (Listener.addListeners r w) as w1 eqn:E. clear E. simpl.
  rewrite Ht, Hv. repeat split. intros Hnil. unfold runTimer. simpl.
  by rewrite Hnil.
Qed.

(** X5. With a toolbar that has none of the four controls the first file
    still reports added page listeners, yet no listener has been added. *)
Theorem attach_without_controls (w : World) (r : nat) (reader : ReaderInstance)
    (f v : nat) (doc : Document)
    (Hs : scaffold w r = Some (reader, f, v))
    (Hdoc : iframeWindow reader = Some doc)
    (Hnone : controls doc = [(None, "click"%string); (None, "click"%string);
                             (None, "click"%string); (None, "change"%string)]) :
  let w1 := Listener.addListeners r w in
  listeners w1 = listeners w
  /\ debugLog w1 = debugLog w ++ [line w (text "adding page listeners");
                                  line w (text "added page listeners")]
  /\ rejections w1 = rejections w /\ tasks w1 = tasks w.
Proof.
  cbv zeta.
  destruct (Listener_run _ _ _ _ _ Hs) as (_ & Hlog & _ & _ & Hrej & Ht & _).
  split; [| done].
  destruct (Listener_found _ _ _ _ _ Hs) as (doc' & w' & Hdoc' & Hl & ->).
  assert (doc' = doc) as -> by congruence.
  injection Hnone as -> -> -> ->. simpl.
  by destruct Hl as (_ & _ & _ & _ & _ & _ & _ & _ & _ & _ & _ & Hls & _).
Qed.

End Click.

(** ** Before the Surface is ready *)

Section Readiness.
Import Plugin Runtime.

(** X6. While a readiness signal of the Surface is unsettled or has
    failed, addListeners (either file) looks nothing up and installs
    nothing: it logs its entry line and then either parks on the signal
    it has to wait for, or, when that signal is rejected, ends by
    rejecting; nothing in the code catches that rejection. *)
Theorem not_ready_no_lookup (w : World) (r : nat) (reader : ReaderInstance) (x : Variant)
    (Hr : readers w !! r = Some reader)
    (Hn : ready w reader = false) :
  let w1 := step (s_addListeners x r) w in
  calls w1 = calls w /\ listeners w1 = listeners w /\ views w1 = views w
  /\ promises w1 = promises w
  /\ debugLog w1 = debugLog w ++ [line w (text "adding page listeners")]
  /\ match promiseState w (awaited w reader) with
     | rejected => rejections w1 = S (rejections w) /\ tasks w1 = tasks w
     | _ => rejections w1 = rejections w
            /\ tasks w1 = tasks w ++ [(awaited w reader, awaiting w reader x r)]
     end.
Proof.
  unfold ready, awaited, awaiting in *. cbv zeta.
  destruct x; simpl;
    unfold Listener.addListeners, Listener.init, Override.addListeners, Override.init, await;
    change (readers (log _ w)) with (readers w);
    change (promiseState (log ?m w)) with (promiseState w);
    rewrite Hr;
    destruct (promiseState w (waitForReader reader)) eqn:E1; simpl in *;
    rewrite ?E1, ?Hr; try done;
    destruct (promiseState w (initPromise reader)) eqn:E2; simpl in *;
    rewrite ?E2; try done.
Qed.

Lemma parked_then_settled W p k a :
  promises W !! p = Some pending ->
  filter (fun t : nat * Cont => t.1 = p) (tasks W) = [] ->
  settle p (ok a) (set_tasks (tasks W ++ [(p, k)]) W)
  = resume k a (set_promises (<[p := fulfilled a]> (promises W))
                  (set_tasks (filter (fun t : nat * Cont => t.1 <> p) (tasks W)) W)).
Proof.
  intros Hp Hfree. rewrite settle_one with (k := k); [| done |].
  - simpl. rewrite filter_app, filter_cons. simpl.
    case_decide as E; [by destruct E |]. by rewrite app_nil_r.
  - simpl. rewrite filter_app, Hfree, filter_cons. simpl. by case_decide.
Qed.

(** X7. It makes no difference whether the readiness signal resolves
    before or after the render notification: a run that parked on the
    signal and is resumed by it ends in the same world as a run started
    after the signal had resolved. *)
Theorem readiness_order_irrelevant (w : World) (r : nat) (reader : ReaderInstance)
    (x : Variant) (a : option nat)
    (Hr : readers w !! r = Some reader)
    (Hp : promises w !! awaited w reader = Some pending)
    (Hfree : filter (fun t : nat * Cont => t.1 = awaited w reader) (tasks w) = []) :
  settle (awaited w reader) (ok a) (step (s_addListeners x r) w)
  = step (s_addListeners x r) (settle (awaited w reader) (ok a) w).
Proof.
  pose proof (lookup_lt_Some _ _ _ Hp) as Hlt.
  assert (promiseState w (awaited w reader) = pending) as Hpend
    by (unfold promiseState; by rewrite Hp).
  rewrite (settle_unparked w _ a Hp Hfree).
  unfold awaited in *.
  destruct (promiseState w (waitForReader reader)) as [| b |] eqn:E1; simpl in *.
  - (* parked on _waitForReader() *)
    assert (forall W : World,
              promiseState (set_promises (<[waitForReader reader := fulfilled a]> (promises w)) W)
                (waitForReader reader) = fulfilled a) as Hnow.
    { intros W. unfold promiseState. simpl. by rewrite list_lookup_insert_eq. }
    destruct x; simpl.
    + unfold Listener.addListeners, await.
      change (readers (log _ ?W)) with (readers W).
      change (promiseState (log ?m ?W)) with (promiseState W).
      simpl readers. rewrite Hr, E1.
      rewrite (parked_then_settled (log _ w)) by done.
      by rewrite Hnow.
    + unfold Override.addListeners, await.
      change (readers (log _ ?W)) with (readers W).
      change (promiseState (log ?m ?W)) with (promiseState W).
      simpl readers. rewrite Hr, E1.
      rewrite (parked_then_settled (log _ w)) by done.
      by rewrite Hnow.
  - (* parked on _initPromise *)
    assert (waitForReader reader <> initPromise reader) as Hne.
    { intros E. rewrite E in E1. congruence. }
    assert (forall W : World,
              promiseState (set_promises (<[initPromise reader := fulfilled a]> (promises w)) W)
                (initPromise reader) = fulfilled a
              /\ promiseState (set_promises (<[initPromise reader := fulfilled a]> (promises w)) W)
                   (waitForReader reader) = fulfilled b) as Hnow.
    { intros W. unfold promiseState in *. simpl.
      by rewrite list_lookup_insert_eq, list_lookup_insert_ne. }
    destruct x; simpl.
    + unfold Listener.addListeners, Listener.init, await.
      change (readers (log _ ?W)) with (readers W).
      change (promiseState (log ?m ?W)) with (promiseState W).
      simpl readers. rewrite Hr, E1, Hpend.
      rewrite (parked_then_settled (log _ w)) by done.
      rewrite (proj2 (Hnow _)). simpl. by rewrite (proj1 (Hnow _)).
    + unfold Override.addListeners, Override.init, await.
      change (readers (log _ ?W)) with (readers W).
      change (promiseState (log ?m ?W)) with (promiseState W).
      simpl readers. rewrite Hr, E1, Hpend.
      rewrite (parked_then_settled (log _ w)) by done.
      rewrite (proj2 (Hnow _)). simpl. by rewrite (proj1 (Hnow _)).
  - congruence.
Qed.

End Readiness.

(** ** The container arrives with the load event *)

Section LateContainer.
Import Plugin Runtime.

Lemma suspended_then_load w w1 f k es :
  suspendedOn w w1 f k ->
  listenersOn f "load" w = [] ->
  Forall (fun t => (t.1 < length (promises w))%nat) (tasks w) ->
  exists W',
    dispatchEvent f "load" (atLoad es w1) = resume k (containerOf es f) W'
    /\ readers W' = readers w /\ views W' = views w
    /\ debugLog W' = debugLog w ++ [line w (text "adding page listeners")]
    /\ listeners W' = listeners w ++ [(f, "load"%string, loadResolve f (length (promises w)))]
    /\ tasks W' = tasks w /\ rejections W' = rejections w
    /\ addonName W' = addonName w
    /\ promises W' = promises w ++ [fulfilled (containerOf es f)].
Proof.
  intros (Hlog & Hls & Hp & Ht & Hrej & Hv & Hr & Hn) Hl Hwf.
  apply fmap_nil_inv in Hl.
  destruct (no_task_on_fresh _ _ Hwf) as [Hnone Hall].
  rewrite (dispatchEvent_single _ f "load" (loadResolve f (length (promises w))))
    by (simpl; by rewrite Hls, filter_snoc_key, Hl).
  rewrite invoke_loadResolve, queryViewerContainer_eq.
  change (elements (atLoad es w1)) with es.
  rewrite settle_one with (k := k).
  - eexists. split; [done |].
    destruct (es !! f ≫= contentDocument); simpl;
      rewrite Hr, Hv, Hlog, Hls, Hrej, Hn, Hp, Ht, insert_last, filter_app, Hall, filter_cons;
      simpl; (case_decide as E; [by destruct E |]); by rewrite app_nil_r.
  - destruct (es !! f ≫= contentDocument); simpl; rewrite Hp; apply lookup_last.
  - destruct (es !! f ≫= contentDocument); simpl;
      rewrite Ht, filter_app, Hnone, filter_cons; simpl; by case_decide.
Qed.

Lemma control_not_load doc (t : nat) (ty : string) :
  (Some t, ty) ∈ controls doc -> ty <> "load"%string.
Proof.
  unfold controls. rewrite !elem_of_cons.
  intros [E | [E | [E | [E | E]]]]; try (injection E as _ ->; done).
  by apply elem_of_nil in E.
Qed.

Lemma newClosure_load w W f p :
  listeners W = listeners w ++ [(f, "load"%string, loadResolve f p)] ->
  newClosure W = newClosure w.
Proof.
  unfold newClosure. intros ->. rewrite map_app, list_max_app. simpl. lia.
Qed.

(** X8. When the frame has no container at the time of the lookup but
    has one when its load event fires, the attachment is completed then,
    as it would have been at once: the first file puts its handler on
    every control that is present, the second file replaces the five
    operations of the view, and both log added page listeners. *)
Theorem late_container_attaches (w : World) (r : nat) (reader : ReaderInstance)
    (f v : nat) (es : gmap nat Element)
    (Hs : surface w r = Some (reader, Some f))
    (Hc : containerOf (elements w) f = None)
    (Hes : containerOf es f = Some v)
    (Hl : listenersOn f "load" w = [])
    (Hwf : Forall (fun t => (t.1 < length (promises w))%nat) (tasks w)) :
  (let l2 := dispatchEvent f "load" (atLoad es (Listener.addListeners r w)) in
   debugLog l2 = debugLog w ++ [line w (text "adding page listeners");
                                line w (text "added page listeners")]
   /\ rejections l2 = rejections w /\ tasks l2 = tasks w
   /\ forall doc t ty,
        iframeWindow reader = Some doc -> (Some t, ty) ∈ controls doc ->
        listenersOn t ty l2 = listenersOn t ty w ++ [handler (newClosure w) v])
  /\ (forall pv eb,
        viewerObjects w reader = Some (pv, eb) ->
        let o2 := dispatchEvent f "load" (atLoad es (Override.addListeners r w)) in
        exists view,
          views w !! lastView reader = Some view
          /\ views o2 = <[lastView reader := replaced (lastView reader) pv eb v view]> (views w)
          /\ debugLog o2 = debugLog w ++ [line w (text "adding page listeners");
                                          line w (text "added page listeners")]
          /\ rejections o2 = rejections w /\ tasks o2 = tasks w).
Proof.
  split.
  - cbv zeta.
    destruct (Listener_suspends _ _ _ _ Hs Hc Hl) as (doc & Hdoc & Hsusp).
    destruct (suspended_then_load _ _ _ _ es Hsusp Hl Hwf)
      as (W' & -> & Wr & Wv & Wlog & Wls & Wt & Wrej & Wn & _).
    rewrite Hes.
    change (resume (k_listen ?a ?b ?c ?d) ?x ?W) with (Listener.attach a b c d x W).
    destruct (Listener_attach_frame (q_previous doc) (q_next doc) (q_navigateBack doc)
                (q_pageNumber doc) v W') as (_ & _ & _ & Alog & _ & _ & Arej & At).
    split; [| split; [congruence | split; [congruence |]]].
    + rewrite Alog, Wlog, <- app_assoc. unfold line. by rewrite Wn.
    + intros doc' t ty Hdoc' Hin. assert (doc' = doc) as -> by congruence.
      rewrite Listener_attach_installs by done.
      rewrite (newClosure_load w W' f _ Wls).
      rewrite (listenersOn_snoc t ty f "load" _ w (listeners w) eq_refl W' Wls).
      pose proof (control_not_load _ _ _ Hin).
      case_decide as E; [injection E as _ E; congruence |]. by rewrite app_nil_r.
  - intros pv eb Ho. cbv zeta.
    pose proof (Override_suspends _ _ _ _ Hs Hc Hl) as Hsusp.
    destruct (suspended_then_load _ _ _ _ es Hsusp Hl Hwf)
      as (W' & -> & Wr & Wv & Wlog & Wls & Wt & Wrej & Wn & _).
    rewrite Hes. change (resume (k_replace ?r) ?x ?W) with (Override.attach r x W).
    apply surface_inv in Hs as (Hrd & _).
    destruct (Override_attach_replaces W' r reader pv eb v) as (view & Hview & ->).
    { by rewrite Wr. }
    { unfold viewerObjects in *. by rewrite Wv. }
    exists view. simpl. rewrite <- Wv. split; [done |]. split; [done |].
    split; [| by split].
    rewrite Wlog, <- app_assoc. unfold line. by rewrite Wn.
Qed.

End LateContainer.

(** ** Load events after the first *)

Section LaterLoads.
Import Plugin Runtime.

Lemma getViewerContainer_waits f w :
  containerOf (elements w) f = None ->
  listenersOn f "load" w = [] ->
  let w1 := (getViewerContainer f w).2 in
  (getViewerContainer f w).1 = length (promises w)
  /\ listeners w1 = listeners w ++ [(f, "load"%string, loadResolve f (length (promises w)))]
  /\ promises w1 = promises w ++ [pending]
  /\ tasks w1 = tasks w.
Proof.
  intros Hc Hl. cbv zeta. rewrite (getViewerContainer_absent _ _ Hc). simpl.
  pose proof (listenersOn_nil_notin f "load" (loadResolve f (length (promises w))) w Hl)
    as Hnotin.
  unfold addEventListener.
  rewrite bool_decide_eq_false_2 by (by destruct (elements w !! f ≫= contentDocument)).
  by destruct (elements w !! f ≫= contentDocument).
Qed.

Lemma load_settles W f p es :
  filter (fun l : nat * string * Callback => l.1 = (f, "load"%string)) (listeners W)
    = [(f, "load"%string, loadResolve f p)] ->
  promises W !! p = Some pending ->
  filter (fun t : nat * Cont => t.1 = p) (tasks W) = [] ->
  let W2 := dispatchEvent f "load" (atLoad es W) in
  listeners W2 = listeners W
  /\ promises W2 = <[p := fulfilled (containerOf es f)]> (promises W)
  /\ tasks W2 = filter (fun t : nat * Cont => t.1 <> p) (tasks W).
Proof.
  intros Hl Hp Ht. cbv zeta.
  rewrite (dispatchEvent_single _ f "load" (loadResolve f p)) by done.
  rewrite invoke_loadResolve, queryViewerContainer_eq.
  change (elements (atLoad es W)) with es.
  rewrite settle_unparked; by destruct (es !! f ≫= contentDocument).
Qed.

Lemma load_after_settled W f p x es :
  filter (fun l : nat * string * Callback => l.1 = (f, "load"%string)) (listeners W)
    = [(f, "load"%string, loadResolve f p)] ->
  promises W !! p = Some (fulfilled x) ->
  dispatchEvent f "load" (atLoad es W) = (queryViewerContainer f (atLoad es W)).2.
Proof.
  intros Hl Hp.
  rewrite (dispatchEvent_single _ f "load" (loadResolve f p)) by done.
  rewrite invoke_loadResolve, queryViewerContainer_eq.
  change (elements (atLoad es W)) with es. unfold settle.
  destruct (es !! f ≫= contentDocument); simpl; by rewrite Hp.
Qed.

(** X9. The load listener of getViewerContainer is never removed, so
    every later load event of the frame repeats the lookup; but the
    promise keeps the answer of the first load event, whatever the frame
    holds later, and nothing else changes. *)
Theorem later_load_events (w : World) (f : nat) (es es' : gmap nat Element)
    (Hc : containerOf (elements w) f = None)
    (Hl : listenersOn f "load" w = [])
    (Ht : Forall (fun t => (t.1 < length (promises w))%nat) (tasks w)) :
  let p := (getViewerContainer f w).1 in
  let w2 := dispatchEvent f "load" (atLoad es (getViewerContainer f w).2) in
  let w3 := dispatchEvent f "load" (atLoad es' w2) in
  promiseState w2 p = fulfilled (containerOf es f)
  /\ promiseState w3 p = fulfilled (containerOf es f)
  /\ listeners w3 = listeners w2 /\ tasks w3 = tasks w2 /\ rejections w3 = rejections w2
  /\ calls w3 = calls w2 ++ match es' !! f ≫= contentDocument with
                            | Some _ => [c_querySelector sel_viewerContainer]
                            | None => []
                            end.
Proof.
  cbv zeta.
  destruct (getViewerContainer_waits f w Hc Hl) as (-> & Hls & Hp & Htk).
  apply fmap_nil_inv in Hl.
  destruct (no_task_on_fresh _ _ Ht) as [Hnone Hall].
  remember (getViewerContainer f w).2 as w1 eqn:E. clear E.
  destruct (load_settles w1 f (length (promises w)) es) as (Hls2 & Hp2 & Htk2).
  { by rewrite Hls, filter_snoc_key, Hl. }
  { rewrite Hp. apply lookup_last. }
  { by rewrite Htk. }
  remember (dispatchEvent f "load" (atLoad es w1)) as w2 eqn:E. clear E.
  assert (promises w2 !! length (promises w) = Some (fulfilled (containerOf es f))) as Hnow.
  { by rewrite Hp2, Hp, insert_last, lookup_last. }
  rewrite (load_after_settled w2 f (length (promises w)) (containerOf es f) es');
    [| by rewrite Hls2, Hls, filter_snoc_key, Hl | done].
  rewrite queryViewerContainer_eq. unfold promiseState.
  change (elements (atLoad es' w2)) with es'. unfold atLoad.
  destruct (es' !! f ≫= contentDocument); simpl; rewrite Hnow, ?app_nil_r; done.
Qed.

End LaterLoads.

(** ** Nothing is ever taken back *)

Section Monotone.
Import Plugin Runtime.

Lemma extends_refl w : extends w w.
Proof. by repeat split. Qed.

Lemma extends_trans w1 w2 w3 : extends w1 w2 -> extends w2 w3 -> extends w1 w3.
Proof.
  intros (A1 & B1 & C1 & D1 & E1) (A2 & B2 & C2 & D2 & E2).
  repeat split; try (by etrans); try congruence; lia.
Qed.

Ltac grow :=
  unfold extends; simpl; repeat split;
  try done; try (by apply prefix_app_r); try lia.

Lemma extends_log m w : extends w (log m w).
Proof. grow. Qed.

Lemma extends_note c w : extends w (note c w).
Proof. grow. Qed.

Lemma extends_call c w : extends w (call c w).
Proof. grow. Qed.

Lemma extends_reject w : extends w (reject w).
Proof. grow. Qed.

Lemma extends_addEventListener t ty cb w : extends w (addEventListener t ty cb w).
Proof. unfold addEventListener. case_bool_decide; grow. Qed.

Lemma extends_addEventListener_opt t ty cb w : extends w (addEventListener_opt t ty cb w).
Proof. destruct t; [apply extends_addEventListener | apply extends_refl]. Qed.

Lemma extends_getViewerContainer f w : extends w (getViewerContainer f w).2.
Proof.
  unfold getViewerContainer. rewrite queryViewerContainer_eq.
  destruct (containerOf _ f).
  - destruct (_ ≫= contentDocument); grow.
  - eapply extends_trans; [| apply extends_addEventListener].
    destruct (_ ≫= contentDocument); grow.
Qed.

Lemma extends_findFrame reader w : extends w (findFrame reader w).2.
Proof. rewrite findFrame_eq. destruct (iframeWindow reader); grow. Qed.

Lemma extends_await p k now w :
  (forall v w', extends w' (now v w')) -> extends w (await p k now w).
Proof. intros H. unfold await. destruct (promiseState w p); [grow | apply H | grow]. Qed.

Lemma extends_centerCurrentPage v w : extends w (centerCurrentPage v w).
Proof.
  unfold centerCurrentPage. destruct (Geometry.getCurrentPage _); grow.
  rewrite <- app_assoc. by apply prefix_app_r.
Qed.

Lemma extends_Listener_attach a b c d v w : extends w (Listener.attach a b c d v w).
Proof.
  destruct v as [v |]; [| apply extends_refl]. unfold Listener.attach.
  eapply extends_trans; [| apply extends_log].
  repeat (eapply extends_trans; [| apply extends_addEventListener_opt]).
  apply extends_refl.
Qed.

Lemma extends_Listener_lookup r w : extends w (Listener.lookup r w).
Proof.
  unfold Listener.lookup. destruct (readers w !! r) as [reader |]; [| apply extends_reject].
  pose proof (extends_findFrame reader w) as Hf.
  destruct (findFrame reader w) as [[f |] w1]; simpl in Hf;
    destruct (iframeWindow reader);
    try (eapply extends_trans; [exact Hf | apply extends_log]).
  match goal with |- context [getViewerContainer f ?W] =>
    pose proof (extends_getViewerContainer f W) as Hg;
    assert (extends w1 W) as Hq
      by (repeat (eapply extends_trans; [| apply extends_note]); apply extends_refl);
    destruct (getViewerContainer f W) as [p w2] end.
  simpl in Hg.
  eapply extends_trans; [exact Hf |]. eapply extends_trans; [exact Hq |].
  eapply extends_trans; [exact Hg |].
  apply extends_await. intros. apply extends_Listener_attach.
Qed.

Lemma extends_Listener_init r w : extends w (Listener.init r w).
Proof.
  unfold Listener.init. destruct (readers w !! r); [| apply extends_reject].
  apply extends_await. intros. apply extends_Listener_lookup.
Qed.

Lemma extends_Listener_addListeners r w : extends w (Listener.addListeners r w).
Proof.
  unfold Listener.addListeners. eapply extends_trans; [apply extends_log |].
  destruct (readers _ !! r); [| apply extends_reject].
  apply extends_await. intros. apply extends_Listener_init.
Qed.

Lemma extends_Override_attach r v w : extends w (Override.attach r v w).
Proof.
  unfold Override.attach. destruct (readers w !! r) as [reader |]; [| apply extends_reject].
  destruct (views w !! _) as [view |]; [| apply extends_reject].
  destruct (Override.readApplication pdfViewer view) as [[] |],
    (Override.readApplication eventBus view) as [[] |], v; grow.
Qed.

Lemma extends_Override_lookup r w : extends w (Override.lookup r w).
Proof.
  unfold Override.lookup. destruct (readers w !! r) as [reader |]; [| apply extends_reject].
  pose proof (extends_findFrame reader w) as Hf.
  destruct (findFrame reader w) as [[f |] w1]; simpl in Hf;
    try (eapply extends_trans; [exact Hf | apply extends_log]).
  pose proof (extends_getViewerContainer f w1) as Hg.
  destruct (getViewerContainer f w1) as [p w2]. simpl in Hg.
  eapply extends_trans; [exact Hf |]. eapply extends_trans; [exact Hg |].
  apply extends_await. intros. apply extends_Override_attach.
Qed.

Lemma extends_Override_init r w : extends w (Override.init r w).
Proof.
  unfold Override.init. destruct (readers w !! r); [| apply extends_reject].
  apply extends_await. intros. apply extends_Override_lookup.
Qed.

Lemma extends_Override_addListeners r w : extends w (Override.addListeners r w).
Proof.
  unfold Override.addListeners. eapply extends_trans; [apply extends_log |].
  destruct (readers _ !! r); [| apply extends_reject].
  apply extends_await. intros. apply extends_Override_init.
Qed.

Lemma extends_resume k v w : extends w (resume k v w).
Proof.
  destruct k as [[] r | [] r | a b c d | r]; simpl;
    auto using extends_Listener_init, extends_Override_init, extends_Listener_lookup,
      extends_Override_lookup, extends_Listener_attach, extends_Override_attach.
Qed.

Lemma extends_fold {A} (g : World -> A -> World) (l : list A) w :
  (forall w a, extends w (g w a)) -> extends w (fold_left g l w).
Proof.
  intros H. revert w. induction l as [| a l IH]; intros w; [apply extends_refl |].
  simpl. eapply extends_trans; [apply H | apply IH].
Qed.

Lemma extends_settle p o w : extends w (settle p o w).
Proof.
  unfold settle. destruct (promises w !! p) as [[] |]; try apply extends_refl.
  destruct o.
  - eapply extends_trans; [| apply extends_fold; intros; apply extends_resume]. grow.
  - eapply extends_trans; [| apply extends_fold; intros; apply extends_reject]. grow.
Qed.

Lemma extends_invoke cb w : extends w (invoke cb w).
Proof.
  destruct cb as [c v | v | f p | n]; simpl.
  - grow.
  - apply extends_centerCurrentPage.
  - rewrite queryViewerContainer_eq.
    eapply extends_trans; [| apply extends_settle].
    destruct (_ ≫= contentDocument); grow.
  - apply extends_call.
Qed.

Lemma extends_step s w :
  s <> s_startup -> s <> s_shutdown -> extends w (step s w).
Proof.
  intros H1 H2.
  destruct s as [| | [] r | [] r | v | m | p o | t ty | | view op | | rs es ls vs]; simpl;
    try done.
  - apply extends_Listener_addListeners.
  - unfold Override.onRenderToolbar. destruct (readers w !! r) as [reader |];
      [destruct (Override.isPDFReader reader);
         [apply extends_Override_addListeners | apply extends_refl]
      | apply extends_reject].
  - apply extends_Listener_addListeners.
  - apply extends_Override_addListeners.
  - apply extends_centerCurrentPage.
  - apply extends_log.
  - apply extends_settle.
  - unfold dispatchEvent. apply extends_fold. intros. apply extends_invoke.
  - unfold runTimer. destruct (timers w) as [| cb rest]; [apply extends_refl |].
    eapply extends_trans; [| apply extends_invoke]. grow.
  - unfold navigate. destruct (slot op <$> views w !! view) as [[] |].
    + apply extends_call.
    + eapply extends_trans; [apply extends_call | apply extends_centerCurrentPage].
    + apply extends_refl.
Qed.

Lemma filter_snoc_out {A} (P : A -> Prop) `{!forall x, Decision (P x)} (l : list A) a :
  ~ P a -> filter P (l ++ [a]) = filter P l.
Proof.
  intros Ha. rewrite filter_app, filter_cons.
  destruct (decide (P a)); [done | by rewrite filter_nil, app_nil_r].
Qed.

Lemma filter_twice {A} (P : A -> Prop) `{!forall x, Decision (P x)} (l : list A) :
  filter P (filter P l) = filter P l.
Proof.
  induction l as [| a l IH]; [done |]. rewrite filter_cons.
  destruct (decide (P a)) as [Ha | Ha]; [| done].
  rewrite filter_cons. destruct (decide (P a)); [by rewrite IH | done].
Qed.

(** What every step keeps. *)
Lemma step_keeps s w :
  listeners w `prefix_of` listeners (step s w)
  /\ debugLog w `prefix_of` debugLog (step s w)
  /\ calls w `prefix_of` calls (step s w)
  /\ (rejections w <= rejections (step s w))%nat
  /\ otherRegistrations w `prefix_of` otherRegistrations (step s w).
Proof.
  assert (Hrest : s <> s_startup -> s <> s_shutdown ->
            listeners w `prefix_of` listeners (step s w)
            /\ debugLog w `prefix_of` debugLog (step s w)
            /\ calls w `prefix_of` calls (step s w)
            /\ (rejections w <= rejections (step s w))%nat
            /\ otherRegistrations w `prefix_of` otherRegistrations (step s w)).
  { intros H1 H2. destruct (extends_step s w H1 H2) as (A & B & C & D & E).
    unfold otherRegistrations. by rewrite E. }
  destruct s; try (by apply Hrest); clear Hrest.
  - change (step s_startup w) with (startup w). unfold otherRegistrations, startup. cbv zeta.
    repeat split; try done; try (by apply prefix_app_r).
    change (registry (set_registry ?l ?W)) with l.
    change (registry (log ?m ?W)) with (registry W).
    rewrite filter_snoc_out; [done |]. intros Hn. by apply Hn.
  - unfold otherRegistrations. simpl. repeat split; try done; try (by apply prefix_app_r).
    by rewrite filter_twice.
Qed.

(** What every step but shutdown keeps of the registry. *)
Lemma step_registry s w :
  s <> s_shutdown -> registry w `prefix_of` registry (step s w).
Proof.
  intros H2.
  assert (Hrest : s <> s_startup -> registry w `prefix_of` registry (step s w)).
  { intros H1. destruct (extends_step s w H1 H2) as (_ & _ & _ & _ & E). by rewrite E. }
  destruct s; try (by apply Hrest); clear Hrest.
  simpl. by apply prefix_app_r.
Qed.

(** X10. DOM event listeners are never removed, and debug lines and
    traced calls are never retracted: over any run of steps (the
    plugin's operations, shutdown included, and every event around it)
    the listeners, the debug log and the calls of the earlier world are a
    prefix of those of the later one, and the count of rejections does
    not go down.  The registry of the host is the one thing that can
    shrink: shutdown has the host drop the plugin's own pair
    (renderToolbar, onRenderToolbar); the registrations of every other
    pair stay, and in a run without shutdown the registry only grows. *)
Theorem nothing_taken_back (ss : list Step) (w : World) :
  listeners w `prefix_of` listeners (run ss w)
  /\ debugLog w `prefix_of` debugLog (run ss w)
  /\ calls w `prefix_of` calls (run ss w)
  /\ (rejections w <= rejections (run ss w))%nat
  /\ otherRegistrations w `prefix_of` otherRegistrations (run ss w)
  /\ (s_shutdown ∉ ss -> registry w `prefix_of` registry (run ss w)).
Proof.
  unfold run. revert w. induction ss as [| s ss IH]; intros w; [by repeat split |].
  simpl. destruct (IH (step s w)) as (A & B & C & D & E & F).
  destruct (step_keeps s w) as (A' & B' & C' & D' & E').
  repeat split; try (by etrans); try lia.
  intros Hno. etrans.
  - apply (step_registry s w). intros Hs. apply Hno. rewrite Hs. apply list_elem_of_here.
  - apply F. intros Hin. by apply Hno, list_elem_of_further.
Qed.

End Monotone.

(** ** After shutdown *)

Section AfterShutdown.
Import Plugin Runtime.

(** X11. shutdown only unregisters and logs: a Surface that was attached
    before keeps its hooks.  In the first file a click on an attached
    control still queues the centring after shutdown; in the second file
    the replaced operations still call their primitive and then
    centerCurrentPage. *)
Theorem shutdown_does_not_detach (w : World) (r : nat) (reader : ReaderInstance)
    (f v : nat)
    (Hs : scaffold w r = Some (reader, f, v)) :
  (forall doc t ty,
     iframeWindow reader = Some doc -> (Some t, ty) ∈ controls doc ->
     listenersOn t ty w = [] ->
     timers (dispatchEvent t ty (shutdown (Listener.addListeners r w)))
     = timers w ++ [centerLater v])
  /\ (forall pv eb op,
        viewerObjects w reader = Some (pv, eb) ->
        let o := shutdown (Override.addListeners r w) in
        navigate (lastView reader) op o
        = centerCurrentPage v
            (call (c_primitive (primitiveOf (lastView reader) pv eb op)) o)).
Proof.
  split.
  - intros doc t ty Hdoc Hin Hfree.
    destruct (Listener_run _ _ _ _ _ Hs) as (_ & _ & _ & _ & _ & _ & Hon).
    destruct (Listener_run_rest _ _ _ _ _ Hs) as (Ht & _).
    rewrite dispatchEvent_listenersOn.
    rewrite (listenersOn_ext t ty (Listener.addListeners r w) (shutdown _) eq_refl).
    rewrite (Hon doc t ty Hdoc Hin), Hfree.
    remember (Listener.addListeners r w) as w1 eqn:E. clear E. simpl. by rewrite Ht.
  - intros pv eb op Ho. cbv zeta.
    destruct (Override_run _ _ _ _ _ _ _ Hs Ho) as (view & _ & Hv & _).
    unfold navigate.
    change (views (shutdown ?W)) with (views W).
    rewrite Hv, lookup_insert_eq. by destruct op.
Qed.

End AfterShutdown.

(** ** Attaching never moves the view *)

Section Quiet.
Import Plugin Runtime.

Lemma quiet_refl w : quiet w w.
Proof. repeat split. exists []. by rewrite app_nil_r. Qed.

Lemma quiet_trans w1 w2 w3 : quiet w1 w2 -> quiet w2 w3 -> quiet w1 w3.
Proof.
  intros (A1 & B1 & C1 & q1 & D1 & E1) (A2 & B2 & C2 & q2 & D2 & E2).
  repeat split; try congruence.
  exists (q1 ++ q2). split; [by rewrite D2, D1, app_assoc | by apply Forall_app].
Qed.

Lemma quiet_same w w' :
  viewers w' = viewers w -> timers w' = timers w -> browser w' = browser w ->
  calls w' = calls w -> quiet w w'.
Proof. intros. repeat split; try done. exists []. by rewrite app_nil_r. Qed.

Lemma quiet_note c w : isQuery c = true -> quiet w (note c w).
Proof. intros H. repeat split. exists [c]. split; [done | by apply Forall_singleton]. Qed.

Lemma quiet_addEventListener_opt t ty cb w : quiet w (addEventListener_opt t ty cb w).
Proof. rewrite addEventListener_opt_shape. by apply quiet_same. Qed.

Lemma quiet_getViewerContainer f w : quiet w (getViewerContainer f w).2.
Proof.
  unfold getViewerContainer. rewrite queryViewerContainer_eq.
  assert (quiet w match elements w !! f ≫= contentDocument with
                  | Some _ => note (c_querySelector sel_viewerContainer)
                                (set_promises (promises w ++ [pending]) w)
                  | None => set_promises (promises w ++ [pending]) w
                  end) as Hq.
  { destruct (_ ≫= contentDocument).
    - apply (quiet_trans _ (set_promises (promises w ++ [pending]) w));
        [by apply quiet_same | by apply quiet_note].
    - by apply quiet_same. }
  change (elements (set_promises _ w)) with (elements w).
  destruct (containerOf _ f); simpl.
  - eapply quiet_trans; [exact Hq |]. by apply quiet_same.
  - eapply quiet_trans; [exact Hq |]. rewrite addEventListener_shape. by apply quiet_same.
Qed.

Lemma quiet_findFrame reader w : quiet w (findFrame reader w).2.
Proof.
  rewrite findFrame_eq. destruct (iframeWindow reader); [by apply quiet_note | apply quiet_refl].
Qed.

Lemma quiet_await p k now w :
  (forall v w', quiet w' (now v w')) -> quiet w (await p k now w).
Proof.
  intros H. unfold await. destruct (promiseState w p); [by apply quiet_same | apply H |
    by apply quiet_same].
Qed.

Lemma quiet_log m w : quiet w (log m w).
Proof. by apply quiet_same. Qed.

Lemma quiet_reject w : quiet w (reject w).
Proof. by apply quiet_same. Qed.

Lemma quiet_Listener_attach a b c d v w : quiet w (Listener.attach a b c d v w).
Proof.
  destruct v as [v |]; [| apply quiet_refl].
  rewrite Listener_attach_shape. by apply quiet_same.
Qed.

Lemma quiet_Listener_lookup r w : quiet w (Listener.lookup r w).
Proof.
  unfold Listener.lookup. destruct (readers w !! r) as [reader |]; [| apply quiet_reject].
  pose proof (quiet_findFrame reader w) as Hf.
  destruct (findFrame reader w) as [[f |] w1]; simpl in Hf;
    destruct (iframeWindow reader);
    try (eapply quiet_trans; [exact Hf | apply quiet_log]).
  match goal with |- context [getViewerContainer f ?W] =>
    pose proof (quiet_getViewerContainer f W) as Hg;
    assert (quiet w1 W) as Hq
      by (repeat (eapply quiet_trans; [| by apply quiet_note]); apply quiet_refl);
    destruct (getViewerContainer f W) as [p w2] end.
  simpl in Hg.
  eapply quiet_trans; [exact Hf |]. eapply quiet_trans; [exact Hq |].
  eapply quiet_trans; [exact Hg |].
  apply quiet_await. intros. apply quiet_Listener_attach.
Qed.

Lemma quiet_Listener_init r w : quiet w (Listener.init r w).
Proof.
  unfold Listener.init. destruct (readers w !! r); [| apply quiet_reject].
  apply quiet_await. intros. apply quiet_Listener_lookup.
Qed.

Lemma quiet_Listener_addListeners r w : quiet w (Listener.addListeners r w).
Proof.
  unfold Listener.addListeners. eapply quiet_trans; [apply quiet_log |].
  destruct (readers _ !! r); [| apply quiet_reject].
  apply quiet_await. intros. apply quiet_Listener_init.
Qed.

Lemma quiet_Override_attach r v w : quiet w (Override.attach r v w).
Proof.
  unfold Override.attach. destruct (readers w !! r) as [reader |]; [| apply quiet_reject].
  destruct (views w !! _) as [view |]; [| apply quiet_reject].
  destruct (Override.readApplication pdfViewer view) as [[] |],
    (Override.readApplication eventBus view) as [[] |], v;
    by apply quiet_same.
Qed.

Lemma quiet_Override_lookup r w : quiet w (Override.lookup r w).
Proof.
  unfold Override.lookup. destruct (readers w !! r) as [reader |]; [| apply quiet_reject].
  pose proof (quiet_findFrame reader w) as Hf.
  destruct (findFrame reader w) as [[f |] w1]; simpl in Hf;
    try (eapply quiet_trans; [exact Hf | apply quiet_log]).
  pose proof (quiet_getViewerContainer f w1) as Hg.
  destruct (getViewerContainer f w1) as [p w2]. simpl in Hg.
  eapply quiet_trans; [exact Hf |]. eapply quiet_trans; [exact Hg |].
  apply quiet_await. intros. apply quiet_Override_attach.
Qed.

Lemma quiet_Override_init r w : quiet w (Override.init r w).
Proof.
  unfold Override.init. destruct (readers w !! r); [| apply quiet_reject].
  apply quiet_await. intros. apply quiet_Override_lookup.
Qed.

Lemma quiet_Override_addListeners r w : quiet w (Override.addListeners r w).
Proof.
  unfold Override.addListeners. eapply quiet_trans; [apply quiet_log |].
  destruct (readers _ !! r); [| apply quiet_reject].
  apply quiet_await. intros. apply quiet_Override_init.
Qed.

Lemma quiet_resume k v w : quiet w (resume k v w).
Proof.
  destruct k as [[] r | [] r | a b c d | r]; simpl;
    auto using quiet_Listener_init, quiet_Override_init, quiet_Listener_lookup,
      quiet_Override_lookup, quiet_Listener_attach, quiet_Override_attach.
Qed.

Lemma quiet_fold {A} (g : World -> A -> World) (l : list A) w :
  (forall w a, quiet w (g w a)) -> quiet w (fold_left g l w).
Proof.
  intros H. revert w. induction l as [| a l IH]; intros w; [apply quiet_refl |].
  simpl. eapply quiet_trans; [apply H | apply IH].
Qed.

Lemma quiet_settle p o w : quiet w (settle p o w).
Proof.
  unfold settle. destruct (promises w !! p) as [[] |]; try apply quiet_refl.
  destruct o.
  - eapply quiet_trans; [| apply quiet_fold; intros; apply quiet_resume].
    by apply quiet_same.
  - eapply quiet_trans; [| apply quiet_fold; intros; apply quiet_reject].
    by apply quiet_same.
Qed.

(** X12. Attaching never moves the view.  Whatever the state of the
    Surface, a render notification or a run of addListeners (either
    file), and likewise the resumption of parked runs when a promise
    settles or when the frame's load listener fires, leaves the layout
    and the browser's state as they were and sets no timer; and of the
    calls that the trace records (DOM queries, scrollTo, the navigation
    primitives, the operations of the view, listeners that are not the
    plugin's) it makes only querySelector queries.  Such a run does write
    debug lines, wait for the reader to be ready and add listeners: these
    are kept in the debug log, the promise store and the listener list,
    and are not what this is about. *)
Theorem attaching_is_quiet (w : World) :
  (forall x r, quiet w (step (s_addListeners x r) w)
               /\ quiet w (step (s_onRenderToolbar x r) w))
  /\ (forall p o, quiet w (settle p o w))
  /\ (forall f p, quiet w (invoke (loadResolve f p) w)).
Proof.
  split; [| split].
  - intros [] r; simpl; split;
      auto using quiet_Listener_addListeners, quiet_Override_addListeners.
    unfold Override.onRenderToolbar. destruct (readers w !! r) as [reader |];
      [| apply quiet_reject].
    destruct (Override.isPDFReader reader);
      [apply quiet_Override_addListeners | apply quiet_refl].
  - intros. apply quiet_settle.
  - intros f p. simpl. rewrite queryViewerContainer_eq.
    eapply quiet_trans; [| apply quiet_settle].
    destruct (_ ≫= contentDocument); [by apply quiet_note | apply quiet_refl].
Qed.

End Quiet.

(** ** The further properties at concrete surfaces *)

Section MoreWitnesses.
Import Plugin Runtime Geometry Examples.

Lemma getCurrentPage_unique_witness :
  let V := spacedViewport (1203 # 1) in
  (pages V !! 2%nat = Some (page 1200 200 400 600)
   /\ withinTolerance (box V) (page 1200 200 400 600))
  /\ getCurrentPage V = Some (page 1200 200 400 600).
Proof.
  cbv zeta.
  assert (pages (spacedViewport (1203 # 1)) !! 2%nat = Some (page 1200 200 400 600))
    as Hi by reflexivity.
  assert (withinTolerance (box (spacedViewport (1203 # 1))) (page 1200 200 400 600))
    as Hp by (unfold withinTolerance; vm_compute; reflexivity).
  split; [by split |].
  apply (getCurrentPage_unique (spacedViewport (1203 # 1)) 2 _ Hi Hp).
  intros [| [| [| j]]] [| [| [| k]]] a b Ha Hb Hne; simpl in Ha, Hb;
    try discriminate; try congruence;
    injection Ha as <-; injection Hb as <-; simpl; lia.
Defined.

Lemma centerCurrentPage_scrolls_witness :
  (exists p, p ∈ pages (layout readyWorld 30)
             /\ withinTolerance (box (layout readyWorld 30)) p)
  /\ exists i page,
       pages (layout readyWorld 30) !! i = Some page
       /\ calls (centerCurrentPage 30 readyWorld)
          = calls readyWorld
            ++ [c_querySelectorAll sel_pages;
                c_scrollTo 30 (getScrollTarget (box (layout readyWorld 30)) page)].
Proof.
  assert (exists p, p ∈ pages (layout readyWorld 30)
                    /\ withinTolerance (box (layout readyWorld 30)) p) as H.
  { exists (page 1200 200 400 600). split.
    - change (pages (layout readyWorld 30))
        with [page 0 0 800 600; page 1200 200 400 600; page 1203 0 800 600].
      apply list_elem_of_further, list_elem_of_here.
    - unfold withinTolerance. vm_compute. reflexivity. }
  split; [exact H |].
  destruct (centerCurrentPage_scrolls readyWorld 30 H) as (i & pg & Hi & _ & _ & Hc & _).
  exists i, pg. split; [exact Hi | exact Hc].
Defined.

Lemma click_defers_centring_witness :
  (scaffold readyWorld 1 = Some (tab pdf, 10%nat, 30%nat)
   /\ iframeWindow (tab pdf) = Some toolbar
   /\ (Some 12%nat, "click"%string) ∈ controls toolbar
   /\ listenersOn 12 "click" readyWorld = [])
  /\ timers (dispatchEvent 12 "click" (Listener.addListeners 1 readyWorld)) = [centerLater 30]
  /\ calls (dispatchEvent 12 "click" (Listener.addListeners 1 readyWorld))
     = calls (Listener.addListeners 1 readyWorld).
Proof.
  assert (scaffold readyWorld 1 = Some (tab pdf, 10%nat, 30%nat)) as Hs by reflexivity.
  assert ((Some 12%nat, "click"%string) ∈ controls toolbar) as Hin
    by apply list_elem_of_further, list_elem_of_here.
  split; [by repeat split |].
  destruct (click_defers_centring readyWorld 1 (tab pdf) 10 30 toolbar 12 "click"
              Hs eq_refl Hin eq_refl) as (H1 & H2 & _).
  split; [exact H1 | exact H2].
Defined.

Lemma attach_without_controls_witness :
  scaffold noControlsWorld 1 = Some (tabWith (Some toolbarEmpty), 10%nat, 30%nat)
  /\ listeners (Listener.addListeners 1 noControlsWorld) = listeners noControlsWorld
  /\ debugLog (Listener.addListeners 1 noControlsWorld)
     = debugLog noControlsWorld
       ++ [line noControlsWorld (text "adding page listeners");
           line noControlsWorld (text "added page listeners")].
Proof.
  assert (scaffold noControlsWorld 1 = Some (tabWith (Some toolbarEmpty), 10%nat, 30%nat))
    as Hs by reflexivity.
  split; [exact Hs |].
  destruct (attach_without_controls noControlsWorld 1 _ 10 30 toolbarEmpty Hs eq_refl eq_refl)
    as (H1 & H2 & _).
  split; [exact H1 | exact H2].
Defined.

Lemma not_ready_no_lookup_witness :
  (readers failedWorld !! 1%nat = Some (tab pdf) /\ ready failedWorld (tab pdf) = false)
  /\ calls (Override.addListeners 1 failedWorld) = calls failedWorld
  /\ rejections (Override.addListeners 1 failedWorld) = S (rejections failedWorld)
  /\ tasks (Listener.addListeners 1 waitingWorld)
     = tasks waitingWorld ++ [(0%nat, k_init listener 1)].
Proof.
  split; [by split |].
  destruct (not_ready_no_lookup failedWorld 1 (tab pdf) override eq_refl eq_refl)
    as (H1 & _ & _ & _ & _ & H2).
  destruct (not_ready_no_lookup waitingWorld 1 (tab pdf) listener eq_refl eq_refl)
    as (_ & _ & _ & _ & _ & H3).
  split; [exact H1 |]. split; [exact (proj1 H2) | exact (proj2 H3)].
Defined.

Lemma readiness_order_irrelevant_witness :
  (readers waitingWorld !! 1%nat = Some (tab pdf)
   /\ promises waitingWorld !! awaited waitingWorld (tab pdf) = Some pending
   /\ tasks waitingWorld = [])
  /\ settle 0 (ok None) (Listener.addListeners 1 waitingWorld)
     = Listener.addListeners 1 (settle 0 (ok None) waitingWorld).
Proof.
  split; [by repeat split |].
  exact (readiness_order_irrelevant waitingWorld 1 (tab pdf) listener None
           eq_refl eq_refl eq_refl).
Defined.

Lemma late_container_attaches_witness :
  (surface loadingWorld 1 = Some (tab pdf, Some 10%nat)
   /\ containerOf (elements loadingWorld) 10 = None
   /\ containerOf loadedFrame 10 = Some 30%nat)
  /\ listenersOn 11 "click"
       (dispatchEvent 10 "load" (atLoad loadedFrame (Listener.addListeners 1 loadingWorld)))
     = listenersOn 11 "click" loadingWorld ++ [handler (newClosure loadingWorld) 30]
  /\ exists view,
       views (dispatchEvent 10 "load"
                (atLoad loadedFrame (Override.addListeners 1 loadingWorld)))
       = <[20%nat := replaced 20 40 41 30 view]> (views loadingWorld).
Proof.
  assert (surface loadingWorld 1 = Some (tab pdf, Some 10%nat)) as Hs by reflexivity.
  split; [by repeat split |].
  destruct (late_container_attaches loadingWorld 1 (tab pdf) 10 30 loadedFrame
              Hs eq_refl eq_refl eq_refl (Forall_nil_2 _)) as [(_ & _ & _ & Hl) Ho].
  split.
  - apply (Hl toolbar 11%nat "click"%string eq_refl). apply list_elem_of_here.
  - destruct (Ho 40%nat 41%nat eq_refl) as (view & _ & Hv & _).
    exists view. exact Hv.
Defined.

Lemma later_load_events_witness :
  (containerOf (elements loadingWorld) 10 = None
   /\ listenersOn 10 "load" loadingWorld = [])
  /\ promiseState
       (dispatchEvent 10 "load"
          (atLoad loadedFrame
             (dispatchEvent 10 "load"
                (atLoad emptyFrame (getViewerContainer 10 loadingWorld).2))))
       (getViewerContainer 10 loadingWorld).1
     = fulfilled None.
Proof.
  split; [by split |].
  exact (proj1 (proj2 (later_load_events loadingWorld 10 emptyFrame loadedFrame
                         eq_refl eq_refl (Forall_nil_2 _)))).
Defined.

Lemma shutdown_does_not_detach_witness :
  scaffold readyWorld 1 = Some (tab pdf, 10%nat, 30%nat)
  /\ timers (dispatchEvent 13 "click" (shutdown (Listener.addListeners 1 readyWorld)))
     = [centerLater 30]
  /\ navigate 20 navigateBack (shutdown (Override.addListeners 1 readyWorld))
     = centerCurrentPage 30
         (call (c_primitive (history_navigateBack 20))
            (shutdown (Override.addListeners 1 readyWorld))).
Proof.
  assert (scaffold readyWorld 1 = Some (tab pdf, 10%nat, 30%nat)) as Hs by reflexivity.
  split; [exact Hs |].
  destruct (shutdown_does_not_detach readyWorld 1 (tab pdf) 10 30 Hs) as [Hl Ho].
  split.
  - apply (Hl toolbar 13%nat "click"%string eq_refl); [| reflexivity].
    apply list_elem_of_further, list_elem_of_further, list_elem_of_here.
  - exact (Ho 40%nat 41%nat navigateBack eq_refl).
Defined.

Lemma nothing_taken_back_witness :
  let ss := [s_startup; s_onRenderToolbar listener 1%nat;
             s_dispatchEvent 13%nat "click"%string; s_runTimer] in
  (s_shutdown ∉ ss)
  /\ registry readyWorld `prefix_of` registry (run ss readyWorld).
Proof.
  cbv zeta.
  assert (s_shutdown ∉ [s_startup; s_onRenderToolbar listener 1%nat;
                        s_dispatchEvent 13%nat "click"%string; s_runTimer]) as Hno.
  { intros H. repeat (apply elem_of_cons in H as [H | H]; [discriminate H |]).
    by apply elem_of_nil in H. }
  split; [exact Hno |].
  exact (proj2 (proj2 (proj2 (proj2 (proj2 (nothing_taken_back _ readyWorld))))) Hno).
Defined.

End MoreWitnesses.
